(** * metrics-server-prom: the transformation engine of [transform.py]

    A shallow embedding of [json2dict], [val2base], [trans_node_metrics] and
    [trans_pod_metrics], together with the library calls they rest on
    ([json.loads], [re.search], [str.format], [str.join], [dict.get]).

    Modelling conventions.
    - The program is read as Python 3.
    - A Python [str] is modelled by a Rocq [string] holding its UTF-8
      encoding; ASCII text is one character per byte.
    - Python integers are unbounded: [Z].
    - A raised exception is a value of [exn]; a computation that may raise
      returns a [result].
    - Interpreter resource limits (recursion depth, memory, the optional cap
      on the number of digits [int] converts) are not modelled. *)

From Stdlib Require Import String Ascii List ZArith Bool Lia DecimalString.
Import ListNotations.

Local Open Scope list_scope.
Local Open Scope string_scope.

(** ** Exceptions and results *)

Inductive exn : Type :=
| ValueError
| TypeError
| AttributeError
| IndexError
| RecursionError.

Inductive result (A : Type) : Type :=
| Ok (a : A)
| Raise (e : exn).

Arguments Ok {A} a.
Arguments Raise {A} e.

Definition bind {A B : Type} (r : result A) (k : A -> result B) : result B :=
  match r with
  | Ok a => k a
  | Raise e => Raise e
  end.

Notation "x <- r ;; k" := (bind r (fun x => k))
  (at level 61, r at next level, right associativity).

(** ** Characters and strings *)

Definition chr (n : nat) : string := String (ascii_of_nat n) EmptyString.

(** The double quote, the line feed and the backslash. *)
Definition dquote : string := chr 34.
Definition newline : string := chr 10.
Definition backslash : string := chr 92.

Definition code (c : ascii) : nat := nat_of_ascii c.

Definition is_digit (c : ascii) : bool :=
  (48 <=? code c)%nat && (code c <=? 57)%nat.

(** [str.join]. *)
Fixpoint join (sep : string) (l : list string) : string :=
  match l with
  | [] => EmptyString
  | [x] => x
  | x :: rest => x ++ sep ++ join sep rest
  end.

(** The remainder of [s] after the prefix [p], when [s] starts with [p]. *)
Fixpoint strip_prefix (p s : string) : option string :=
  match p with
  | EmptyString => Some s
  | String a p' =>
      match s with
      | EmptyString => None
      | String b s' => if Ascii.eqb a b then strip_prefix p' s' else None
      end
  end.

(** The remainder after the first of the alternatives that is a prefix. *)
Fixpoint strip_any (alts : list string) (s : string) : option string :=
  match alts with
  | [] => None
  | p :: alts' =>
      match strip_prefix p s with
      | Some rest => Some rest
      | None => strip_any alts' s
      end
  end.

(** The longest run of ASCII digits at the start of [s], and what follows. *)
Fixpoint span_digits (s : string) : string * string :=
  match s with
  | EmptyString => (EmptyString, EmptyString)
  | String c s' =>
      if is_digit c
      then let (ds, rest) := span_digits s' in (String c ds, rest)
      else (EmptyString, s)
  end.

(** [int(ds)] for a string of ASCII digits ([int_acc] carries the value of
    the digits read so far). *)
Fixpoint int_acc (acc : Z) (ds : string) : Z :=
  match ds with
  | EmptyString => acc
  | String c ds' => int_acc (10 * acc + Z.of_nat (code c - 48)) ds'
  end.

Definition int (ds : string) : Z := int_acc 0 ds.

(** [str(n)] for an integer. *)
Definition str_of_int (n : Z) : string := NilZero.string_of_int (Z.to_int n).

(** ** Regular expressions of [val2base]

    Every pattern of [val2base] is [^ ... $]: a sequence of capture groups
    [([0-9]+)] and literal letters, searched with [re.IGNORECASE].  A group
    is always followed by a letter, so the greedy run of digits is the only
    candidate for it and no backtracking is needed. *)

Inductive atom : Type :=
| Digits              (* ([0-9]+), a capture group *)
| Lit (c : ascii).    (* a literal letter, case-insensitive *)

Definition pattern : Type := list atom.

Definition is_upper (c : ascii) : bool :=
  (65 <=? code c)%nat && (code c <=? 90)%nat.

Definition is_lower (c : ascii) : bool :=
  (97 <=? code c)%nat && (code c <=? 122)%nat.

Definition to_lower (c : ascii) : ascii :=
  if is_upper c then ascii_of_nat (code c + 32) else c.

Definition to_upper (c : ascii) : ascii :=
  if is_lower c then ascii_of_nat (code c - 32) else c.

Definition bytes (l : list nat) : string :=
  fold_right (fun n s => String (ascii_of_nat n) s) EmptyString l.

(** The non-ASCII characters that Python 3 equates with an ASCII letter
    under [re.IGNORECASE] (given by the lower-case letter): the Kelvin sign
    U+212A for k, the dotted capital I U+0130 and the dotless i U+0131 for i,
    and the long s U+017F for s. *)
Definition unicode_equivalents (lo : ascii) : list string :=
  match code lo with
  | 107 => [bytes [226; 132; 170]]
  | 105 => [bytes [196; 176]; bytes [196; 177]]
  | 115 => [bytes [197; 191]]
  | _ => []
  end.

(** All spellings that match the literal [c] under [re.IGNORECASE]. *)
Definition ci_spellings (c : ascii) : list string :=
  String (to_upper c) EmptyString :: String (to_lower c) EmptyString
    :: unicode_equivalents (to_lower c).

(** [$] without [re.MULTILINE]: the end of the string, or just before a line
    feed that is the last character. *)
Definition at_end (s : string) : bool :=
  match s with
  | EmptyString => true
  | String c EmptyString => Ascii.eqb c "010"%char
  | _ => false
  end.

(** [re.search(p, s, re.IGNORECASE)] for an anchored pattern: the captured
    groups in order, or [None]. *)
Fixpoint re_search (p : pattern) (s : string) : option (list string) :=
  match p with
  | [] => if at_end s then Some [] else None
  | Digits :: p' =>
      let (ds, rest) := span_digits s in
      match ds with
      | EmptyString => None
      | _ => option_map (cons ds) (re_search p' rest)
      end
  | Lit c :: p' =>
      match strip_any (ci_spellings c) s with
      | Some rest => re_search p' rest
      | None => None
      end
  end.

(** The five patterns, in the order [val2base] tries them. *)
Definition re_Ki : pattern := [Digits; Lit "K"; Lit "i"].
Definition re_Mi : pattern := [Digits; Lit "M"; Lit "i"].
Definition re_Gi : pattern := [Digits; Lit "G"; Lit "i"].
Definition re_ms : pattern := [Digits; Lit "m"; Digits; Lit "s"].
Definition re_m : pattern := [Digits; Lit "m"].

(** ** Dynamically typed values of [val2base] *)

Inductive base : Type :=
| BInt (n : Z)
| BStr (s : string).

(** [a + b] on an [int] or [str] pair. *)
Definition py_add (a b : base) : result base :=
  match a, b with
  | BInt x, BInt y => Ok (BInt (x + y))
  | BStr x, BStr y => Ok (BStr (x ++ y))
  | _, _ => Raise TypeError
  end.

(** Truth value of a string: non-empty. *)
Definition truthy (s : string) : bool :=
  match s with
  | EmptyString => false
  | _ => true
  end.

(** [val.group(i)] for a match object; groups are numbered from 1. *)
Definition group (val : list string) (i : nat) : string :=
  nth (i - 1) val EmptyString.

(** [val and val.group(1)] *)
Definition matched1 (val : option (list string)) : bool :=
  match val with
  | Some g => truthy (group g 1)
  | None => false
  end.

(** [val and val.group(1) and val.group(2)] *)
Definition matched2 (val : option (list string)) : bool :=
  match val with
  | Some g => truthy (group g 1) && truthy (group g 2)
  | None => false
  end.

Definition groups (val : option (list string)) : list string :=
  match val with
  | Some g => g
  | None => []
  end.

Definition val2base (string : string) : result base :=
  (* Transform KiliByte, MegiByte and GigiByte into Bytes *)
  let val := re_search re_Ki string in
  if matched1 val then Ok (BInt (int (group (groups val) 1) * 1024)) else
  let val := re_search re_Mi string in
  if matched1 val then Ok (BInt (int (group (groups val) 1) * (1024 * 1024))) else
  let val := re_search re_Gi string in
  if matched1 val
  then Ok (BInt (int (group (groups val) 1) * (1024 * 1024 * 1024))) else
  (* Transform minutes and seconds into seconds *)
  let val := re_search re_ms string in
  if matched2 val
  then py_add (BInt (int (group (groups val) 1) * 60)) (BStr (group (groups val) 2)) else
  (* Transform minutes into seconds *)
  let val := re_search re_m string in
  if matched1 val then Ok (BInt (int (group (groups val) 1) * 60)) else
  (* Otherwise return value as it came in *)
  Ok (BStr string).

(** ** JSON values

    What [json.loads] returns: [None], [bool], [int], [float], [str], [list]
    and [dict].  A [float] keeps the text of its literal; a [dict] is the
    list of its items in insertion order, keys distinct. *)

#[warnings="-register-all"]
Inductive json : Type :=
| JNull
| JBool (b : bool)
| JInt (n : Z)
| JFloat (lit : string)
| JStr (s : string)
| JArr (items : list json)
| JObj (fields : list (string * json)).

(** [d.get(key)] on the items of a dict. *)
Fixpoint dict_lookup (key : string) (d : list (string * json)) : option json :=
  match d with
  | [] => None
  | (k, v) :: d' => if String.eqb key k then Some v else dict_lookup key d'
  end.

(** [d[key] = v]: a present key keeps its place and takes the new value. *)
Fixpoint dict_set (key : string) (v : json) (d : list (string * json))
  : list (string * json) :=
  match d with
  | [] => [(key, v)]
  | (k, w) :: d' =>
      if String.eqb key k then (k, v) :: d' else (k, w) :: dict_set key v d'
  end.

(** [dict(pairs)] *)
Definition dict (pairs : list (string * json)) : list (string * json) :=
  fold_left (fun d kv => dict_set (fst kv) (snd kv) d) pairs [].

(** ** [json.loads]

    The decoder of the standard library ([json.decoder], [json.scanner]) in
    its default configuration: strict strings, [NaN] and the infinities
    accepted, objects built with [dict]. *)

Definition is_ws (c : ascii) : bool :=
  match code c with
  | 32 | 9 | 10 | 13 => true
  | _ => false
  end.

Fixpoint skip_ws (s : string) : string :=
  match s with
  | EmptyString => EmptyString
  | String c s' => if is_ws c then skip_ws s' else s
  end.

Definition hex_digit (c : ascii) : option N :=
  let n := N_of_ascii c in
  if (48 <=? n)%N && (n <=? 57)%N then Some (n - 48)%N
  else if (97 <=? n)%N && (n <=? 102)%N then Some (n - 87)%N
  else if (65 <=? n)%N && (n <=? 70)%N then Some (n - 55)%N
  else None.

Definition hex4 (a b c d : ascii) : option N :=
  match hex_digit a, hex_digit b, hex_digit c, hex_digit d with
  | Some x, Some y, Some z, Some w => Some (((x * 16 + y) * 16 + z) * 16 + w)%N
  | _, _, _, _ => None
  end.

Definition byte (n : N) : string := String (ascii_of_N n) EmptyString.

(** The UTF-8 encoding of [chr(cp)] (surrogates are encoded as they are). *)
Definition utf8 (cp : N) : string :=
  if (cp <? 128)%N then byte cp
  else if (cp <? 2048)%N then
    byte (192 + cp / 64) ++ byte (128 + cp mod 64)
  else if (cp <? 65536)%N then
    byte (224 + cp / 4096) ++ byte (128 + (cp / 64) mod 64)
      ++ byte (128 + cp mod 64)
  else
    byte (240 + cp / 262144) ++ byte (128 + (cp / 4096) mod 64)
      ++ byte (128 + (cp / 64) mod 64) ++ byte (128 + cp mod 64).

Definition is_high_surrogate (cp : N) : bool :=
  ((55296 <=? cp) && (cp <=? 56319))%N.

Definition is_low_surrogate (cp : N) : bool :=
  ((56320 <=? cp) && (cp <=? 57343))%N.

Definition join_surrogates (hi lo : N) : N :=
  (65536 + ((hi - 55296) * 1024 + (lo - 56320)))%N.

(** The character a one-letter escape stands for. *)
Definition unescape (e : ascii) : option string :=
  match code e with
  | 34 => Some (chr 34)
  | 92 => Some (chr 92)
  | 47 => Some (chr 47)
  | 98 => Some (chr 8)
  | 102 => Some (chr 12)
  | 110 => Some (chr 10)
  | 114 => Some (chr 13)
  | 116 => Some (chr 9)
  | _ => None
  end.

Definition prepend (p : string) (r : option (string * string))
  : option (string * string) :=
  match r with
  | Some (s, rest) => Some (p ++ s, rest)
  | None => None
  end.

(** [scanstring]: the contents of a string literal whose opening quote has
    been read, and what follows its closing quote; [None] for an unterminated
    string, a control character or a bad escape. *)
Fixpoint scanstring (s : string) : option (string * string) :=
  match s with
  | EmptyString => None
  | String c s1 =>
      if Ascii.eqb c "034"%char then Some (EmptyString, s1)
      else if Ascii.eqb c "092"%char then
        match s1 with
        | EmptyString => None
        | String e s2 =>
            if Ascii.eqb e "u"%char then
              match s2 with
              | String h1 (String h2 (String h3 (String h4 s6))) =>
                  match hex4 h1 h2 h3 h4 with
                  | None => None
                  | Some hi =>
                      match s6 with
                      | String b (String u (String l1 (String l2
                          (String l3 (String l4 s12))))) =>
                          if is_high_surrogate hi && Ascii.eqb b "092"%char
                             && Ascii.eqb u "u"%char
                          then
                            match hex4 l1 l2 l3 l4 with
                            | None => None
                            | Some lo =>
                                if is_low_surrogate lo
                                then prepend (utf8 (join_surrogates hi lo))
                                       (scanstring s12)
                                else prepend (utf8 hi) (scanstring s6)
                            end
                          else prepend (utf8 hi) (scanstring s6)
                      | _ => prepend (utf8 hi) (scanstring s6)
                      end
                  end
              | _ => None
              end
            else
              match unescape e with
              | Some ch => prepend ch (scanstring s2)
              | None => None
              end
        end
      else if (code c <? 32)%nat then None
      else prepend (String c EmptyString) (scanstring s1)
  end.

(** The number at the start of [s], as the scanner's regular expression
    reads it: an optional minus sign, then 0 or a digit run that does not
    start with 0, then optionally a point and digits, then optionally e or E,
    a sign and digits.  It is an [int] when it has neither fraction nor
    exponent, a [float] otherwise. *)
Definition scan_integer (s : string) : option (string * string) :=
  let (ds, rest) := span_digits s in
  match ds with
  | EmptyString => None
  | String d ds' =>
      if Ascii.eqb d "0"%char then Some ("0", ds' ++ rest) else Some (ds, rest)
  end.

Definition scan_frac (s : string) : string * string :=
  match strip_prefix "." s with
  | Some s1 =>
      let (ds, rest) := span_digits s1 in
      match ds with
      | EmptyString => (EmptyString, s)
      | _ => ("." ++ ds, rest)
      end
  | None => (EmptyString, s)
  end.

Definition scan_exp (s : string) : string * string :=
  match s with
  | String e s1 =>
      if Ascii.eqb e "e"%char || Ascii.eqb e "E"%char then
        let (sign, s2) :=
          match strip_any ["-"; "+"] s1 with
          | Some r => (substring 0 1 s1, r)
          | None => (EmptyString, s1)
          end in
        let (ds, rest) := span_digits s2 in
        match ds with
        | EmptyString => (EmptyString, s)
        | _ => (String e sign ++ ds, rest)
        end
      else (EmptyString, s)
  | EmptyString => (EmptyString, s)
  end.

Definition scan_number (s : string) : option (json * string) :=
  let (neg, s1) :=
    match strip_prefix "-" s with
    | Some r => (true, r)
    | None => (false, s)
    end in
  match scan_integer s1 with
  | None => None
  | Some (integer, s2) =>
      let (frac, s3) := scan_frac s2 in
      let (exp, s4) := scan_exp s3 in
      match frac, exp with
      | EmptyString, EmptyString =>
          Some (JInt (if neg then - int integer else int integer), s4)
      | _, _ =>
          Some (JFloat ((if neg then "-" else "") ++ integer ++ frac ++ exp), s4)
      end
  end.

(** The outcome of scanning: a value and the rest of the text, a syntax
    error, or fuel exhausted. *)
Inductive scan (A : Type) : Type :=
| Scanned (a : A) (rest : string)
| Invalid
| Exhausted.

Arguments Scanned {A} a rest.
Arguments Invalid {A}.
Arguments Exhausted {A}.

(** The constants and numbers of [scan_once], in the order it tries them. *)
Definition scan_atom (s : string) : scan json :=
  match strip_prefix "null" s with
  | Some rest => Scanned JNull rest
  | None =>
  match strip_prefix "true" s with
  | Some rest => Scanned (JBool true) rest
  | None =>
  match strip_prefix "false" s with
  | Some rest => Scanned (JBool false) rest
  | None =>
  match scan_number s with
  | Some (n, rest) => Scanned n rest
  | None =>
  match strip_prefix "NaN" s with
  | Some rest => Scanned (JFloat "NaN") rest
  | None =>
  match strip_prefix "Infinity" s with
  | Some rest => Scanned (JFloat "Infinity") rest
  | None =>
  match strip_prefix "-Infinity" s with
  | Some rest => Scanned (JFloat "-Infinity") rest
  | None => Invalid
  end end end end end end end.

(** [scan_once] reads one value at the start of [s]; [json_object] reads an
    object from just after the opening quote of a key, [json_array] an array
    from its next element; both carry what they have read so far. *)
Fixpoint scan_once (fuel : nat) (s : string) : scan json :=
  match fuel with
  | O => Exhausted
  | S fuel' =>
      match s with
      | EmptyString => Invalid
      | String c s1 =>
          if Ascii.eqb c "034"%char then
            match scanstring s1 with
            | Some (str, rest) => Scanned (JStr str) rest
            | None => Invalid
            end
          else if Ascii.eqb c "{"%char then
            match skip_ws s1 with
            | EmptyString => Invalid
            | String d s2 =>
                if Ascii.eqb d "}"%char then Scanned (JObj []) s2
                else if Ascii.eqb d "034"%char then json_object fuel' s2 []
                else Invalid
            end
          else if Ascii.eqb c "["%char then
            match strip_prefix "]" (skip_ws s1) with
            | Some rest => Scanned (JArr []) rest
            | None => json_array fuel' (skip_ws s1) []
            end
          else scan_atom s
      end
  end
with json_object (fuel : nat) (s : string) (pairs : list (string * json))
  : scan json :=
  match fuel with
  | O => Exhausted
  | S fuel' =>
      match scanstring s with
      | None => Invalid
      | Some (key, s1) =>
          match strip_prefix ":" (skip_ws s1) with
          | None => Invalid
          | Some s2 =>
              match scan_once fuel' (skip_ws s2) with
              | Scanned value s3 =>
                  let pairs := (pairs ++ [(key, value)])%list in
                  match skip_ws s3 with
                  | EmptyString => Invalid
                  | String d s4 =>
                      if Ascii.eqb d "}"%char then Scanned (JObj (dict pairs)) s4
                      else if Ascii.eqb d ","%char then
                        match strip_prefix dquote (skip_ws s4) with
                        | Some s5 => json_object fuel' s5 pairs
                        | None => Invalid
                        end
                      else Invalid
                  end
              | Invalid => Invalid
              | Exhausted => Exhausted
              end
          end
      end
  end
with json_array (fuel : nat) (s : string) (values : list json) : scan json :=
  match fuel with
  | O => Exhausted
  | S fuel' =>
      match scan_once fuel' s with
      | Scanned value s1 =>
          let values := (values ++ [value])%list in
          match skip_ws s1 with
          | EmptyString => Invalid
          | String d s2 =>
              if Ascii.eqb d "]"%char then Scanned (JArr values) s2
              else if Ascii.eqb d ","%char then json_array fuel' (skip_ws s2) values
              else Invalid
          end
      | Invalid => Invalid
      | Exhausted => Exhausted
      end
  end.

(** [json.loads(s)]: one value between optional white space, anything else
    is a [JSONDecodeError], which is a [ValueError].  The fuel is twice the
    length of the text, which [scan_once] never exhausts
    ([scan_once_enough]). *)
Definition json_loads (s : string) : result json :=
  let s0 := skip_ws s in
  match scan_once (2 * String.length s0 + 1) s0 with
  | Scanned v rest =>
      match skip_ws rest with
      | EmptyString => Ok v
      | _ => Raise ValueError
      end
  | Invalid => Raise ValueError
  | Exhausted => Raise RecursionError
  end.

(** ** [json2dict] *)

Definition json2dict (data : string) : result json :=
  let json_object := JObj [] in
  match json_loads data with
  | Ok parsed => Ok parsed
  | Raise ValueError => Ok json_object
  | Raise e => Raise e
  end.

(** ** Python object protocol on decoded values *)

(** [x.get(key, default)]: only a [dict] has the method. *)
Definition py_get (x : json) (key : string) (default : json) : result json :=
  match x with
  | JObj d =>
      match dict_lookup key d with
      | Some v => Ok v
      | None => Ok default
      end
  | _ => Raise AttributeError
  end.

Definition is_continuation (c : ascii) : bool :=
  (128 <=? code c)%nat && (code c <? 192)%nat.

(** The characters of a string, each with the bytes that continue it. *)
Fixpoint chars (s : string) : list string :=
  match s with
  | EmptyString => []
  | String c s' =>
      match chars s' with
      | String d x :: r =>
          if is_continuation d then String c (String d x) :: r
          else String c EmptyString :: String d x :: r
      | r => String c EmptyString :: r
      end
  end.

(** [for item in x]: the elements of a [list], the keys of a [dict], the
    characters of a [str]; nothing else is iterable. *)
Definition py_iter (x : json) : result (list json) :=
  match x with
  | JArr items => Ok items
  | JObj d => Ok (map (fun kv => JStr (fst kv)) d)
  | JStr s => Ok (map JStr (chars s))
  | _ => Raise TypeError
  end.

(** What [for item in data.get('items', [])] runs over. *)
Definition document_items (data : json) : result (list json) :=
  items <- py_get data "items" (JArr []) ;;
  py_iter items.

(** The subject of [re.search] must be a [str]. *)
Definition re_subject (x : json) : result string :=
  match x with
  | JStr s => Ok s
  | _ => Raise TypeError
  end.

(** [str(b)] for a result of [val2base]. *)
Definition base_str (b : base) : string :=
  match b with
  | BInt n => str_of_int n
  | BStr s => s
  end.

(** [tpl.format(args)] for a template whose replacement fields are all
    [{}]; doubled braces stand for a brace.  No other field syntax occurs in
    the templates of this program. *)
Fixpoint format (tpl : string) (args : list string) : result string :=
  match tpl with
  | EmptyString => Ok EmptyString
  | String c t1 =>
      if Ascii.eqb c "{"%char then
        match t1 with
        | String d t2 =>
            if Ascii.eqb d "{"%char then
              r <- format t2 args ;; Ok (String c r)
            else if Ascii.eqb d "}"%char then
              match args with
              | a :: args' => r <- format t2 args' ;; Ok (a ++ r)
              | [] => Raise IndexError
              end
            else Raise ValueError
        | EmptyString => Raise ValueError
        end
      else if Ascii.eqb c "}"%char then
        match t1 with
        | String d t2 =>
            if Ascii.eqb d "}"%char then r <- format t2 args ;; Ok (String c r)
            else Raise ValueError
        | EmptyString => Raise ValueError
        end
      else r <- format t1 args ;; Ok (String c r)
  end.

(** [for x in l: body], threading the variables the body assigns. *)
Fixpoint for_each {A St : Type} (body : St -> A -> result St) (l : list A)
  (st : St) : result St :=
  match l with
  | [] => Ok st
  | x :: l' => st' <- body st x ;; for_each body l' st'
  end.

(** [repr] of a [float] (given by its literal) and of a [str].  They rest on
    binary floating point and on the Unicode character tables, and are taken
    as given; they are used only to print a label that is not a string. *)
Class PyRuntime : Type := {
  float_repr : string -> string;
  str_repr : string -> string
}.

(** A string between double quotes, as written in the templates. *)
Definition quoted (s : string) : string := dquote ++ s ++ dquote.

Section Rendering.

Context {rt : PyRuntime}.

(** [repr(x)] *)
Fixpoint py_repr (x : json) : string :=
  match x with
  | JNull => "None"
  | JBool true => "True"
  | JBool false => "False"
  | JInt n => str_of_int n
  | JFloat lit => float_repr lit
  | JStr s => str_repr s
  | JArr items => "[" ++ join ", " (map py_repr items) ++ "]"
  | JObj d =>
      "{" ++ join ", "
               (map (fun kv => let (k, v) := kv : string * json in
                               str_repr k ++ ": " ++ py_repr v) d)
          ++ "}"
  end.

(** [format(x, '')], which is [str(x)]: a string is itself. *)
Definition py_str (x : json) : string :=
  match x with
  | JStr s => s
  | _ => py_repr x
  end.

(** *** [trans_node_metrics] *)

Definition node_cpu_header : list string :=
  ["# HELP kube_metrics_server_node_cpu The CPU time of a node in seconds.";
   "# TYPE kube_metrics_server_node_cpu gauge"].

Definition node_mem_header : list string :=
  ["# HELP kube_metrics_server_node_mem The memory of a node in Bytes.";
   "# TYPE kube_metrics_server_node_mem gauge"].

Definition node_tpl : string :=
  "kube_metrics_server_node_{}{{node=" ++ quoted "{}"
    ++ ",created=" ++ quoted "{}" ++ ",timestamp=" ++ quoted "{}"
    ++ ",window=" ++ quoted "{}" ++ ",debugval=" ++ quoted "{}" ++ "}} {}".

(** The labels of a node: the [lbl] dict of the loop body. *)
Record node_lbl : Type := {
  nl_node : json;
  nl_created : json;
  nl_timestamp : json;
  nl_window : json
}.

Definition node_labels (node : json) : result node_lbl :=
  m1 <- py_get node "metadata" (JArr []) ;;
  name <- py_get m1 "name" (JStr "") ;;
  m2 <- py_get node "metadata" (JArr []) ;;
  created <- py_get m2 "creationTimestamp" (JStr "") ;;
  timestamp <- py_get node "timestamp" (JStr "") ;;
  window <- py_get node "window" (JStr "") ;;
  Ok {| nl_node := name; nl_created := created;
        nl_timestamp := timestamp; nl_window := window |}.

(** The usage values of a node or container: the [val] dict. *)
Definition usage_values (item : json) : result (json * json) :=
  u1 <- py_get item "usage" (JArr []) ;;
  cpu <- py_get u1 "cpu" (JStr "") ;;
  u2 <- py_get item "usage" (JArr []) ;;
  mem <- py_get u2 "memory" (JStr "") ;;
  Ok (cpu, mem).

(** One formatted line of the node template. *)
Definition node_line (kind : string) (lbl : node_lbl) (raw : json)
  : result string :=
  s <- re_subject raw ;;
  v <- val2base s ;;
  format node_tpl
    [kind; py_str (nl_node lbl); py_str (nl_created lbl);
     py_str (nl_timestamp lbl); py_str (nl_window lbl); py_str raw;
     base_str v].

(** The body of the loop over nodes: the cpu line and the mem line. *)
Definition node_lines (node : json) : result (string * string) :=
  lbl <- node_labels node ;;
  val <- usage_values node ;;
  c <- node_line "cpu" lbl (fst val) ;;
  m <- node_line "mem" lbl (snd val) ;;
  Ok (c, m).

Definition node_body (st : list string * list string) (node : json)
  : result (list string * list string) :=
  l <- node_lines node ;;
  Ok ((fst st ++ [fst l])%list, (snd st ++ [snd l])%list).

(** The renderer on a decoded document. *)
Definition render_nodes (data : json) : result string :=
  let cpu := node_cpu_header in
  let mem := node_mem_header in
  nodes <- document_items data ;;
  st <- for_each node_body nodes (cpu, mem) ;;
  Ok (join newline (fst st ++ snd st)%list).

Definition trans_node_metrics (string : string) : result String.string :=
  data <- json2dict string ;;
  render_nodes data.

(** *** [trans_pod_metrics] *)

Definition pod_cpu_header : list string :=
  ["# HELP kube_metrics_server_pod_cpu The CPU time of a pod in seconds.";
   "# TYPE kube_metrics_server_pod_cpu gauge"].

Definition pod_mem_header : list string :=
  ["# HELP kube_metrics_server_pod_mem The memory of a pod in Bytes.";
   "# TYPE kube_metrics_server_pod_mem gauge"].

Definition pod_tpl : string :=
  "kube_metrics_server_pod_{}{{pod=" ++ quoted "{}"
    ++ ",container=" ++ quoted "{}" ++ ",namespace=" ++ quoted "{}"
    ++ ",created=" ++ quoted "{}" ++ ",timestamp=" ++ quoted "{}"
    ++ ",window=" ++ quoted "{}" ++ ",debugval=" ++ quoted "{}" ++ "}} {}".

(** The labels of a pod; [pl_cont] is assigned for each container. *)
Record pod_lbl : Type := {
  pl_pod : json;
  pl_ns : json;
  pl_created : json;
  pl_timestamp : json;
  pl_window : json
}.

Definition pod_labels (pod : json) : result pod_lbl :=
  m1 <- py_get pod "metadata" (JArr []) ;;
  name <- py_get m1 "name" (JStr "") ;;
  m2 <- py_get pod "metadata" (JArr []) ;;
  ns <- py_get m2 "namespace" (JStr "") ;;
  m3 <- py_get pod "metadata" (JArr []) ;;
  created <- py_get m3 "creationTimestamp" (JStr "") ;;
  timestamp <- py_get pod "timestamp" (JStr "") ;;
  window <- py_get pod "window" (JStr "") ;;
  Ok {| pl_pod := name; pl_ns := ns; pl_created := created;
        pl_timestamp := timestamp; pl_window := window |}.

Definition pod_line (kind : string) (lbl : pod_lbl) (cont raw : json)
  : result string :=
  s <- re_subject raw ;;
  v <- val2base s ;;
  format pod_tpl
    [kind; py_str (pl_pod lbl); py_str cont; py_str (pl_ns lbl);
     py_str (pl_created lbl); py_str (pl_timestamp lbl);
     py_str (pl_window lbl); py_str raw; base_str v].

(** The body of the loop over the containers of a pod. *)
Definition container_lines (lbl : pod_lbl) (container : json)
  : result (string * string) :=
  cont <- py_get container "name" (JStr "") ;;
  val <- usage_values container ;;
  c <- pod_line "cpu" lbl cont (fst val) ;;
  m <- pod_line "mem" lbl cont (snd val) ;;
  Ok (c, m).

Definition container_body (lbl : pod_lbl) (st : list string * list string)
  (container : json) : result (list string * list string) :=
  l <- container_lines lbl container ;;
  Ok ((fst st ++ [fst l])%list, (snd st ++ [snd l])%list).

(** The containers a pod's inner loop runs over. *)
Definition pod_containers (pod : json) : result (list json) :=
  cs <- py_get pod "containers" (JArr []) ;;
  py_iter cs.

(** The body of the loop over pods. *)
Definition pod_body (st : list string * list string) (pod : json)
  : result (list string * list string) :=
  lbl <- pod_labels pod ;;
  containers <- pod_containers pod ;;
  for_each (container_body lbl) containers st.

Definition render_pods (data : json) : result string :=
  let cpu := pod_cpu_header in
  let mem := pod_mem_header in
  pods <- document_items data ;;
  st <- for_each pod_body pods (cpu, mem) ;;
  Ok (join newline (fst st ++ snd st)%list).

Definition trans_pod_metrics (string : string) : result String.string :=
  data <- json2dict string ;;
  render_pods data.

End Rendering.

(** A runtime for the examples: it prints a float as its literal and a
    string between single quotes.  No example prints either. *)
Definition example_runtime : PyRuntime :=
  {| float_repr := fun lit => lit;
     str_repr := fun s => "'" ++ s ++ "'" |}.

(** ** The HTTP entry points

    [metrics] and [healthz] ask the proxy for two pages with [requests.get]
    and answer with a Flask [Response].  The network is a parameter: what a
    GET of a URL gives, or nothing when [requests.get] raises.  A handler
    threads the list of the URLs requested so far. *)

Definition PROXY : string := "http://127.0.0.1:8080".
Definition URL_NODES : string := PROXY ++ "/apis/metrics.k8s.io/v1beta1/nodes".
Definition URL_PODS : string := PROXY ++ "/apis/metrics.k8s.io/v1beta1/pods".

(** What [requests.get] returns: the attributes the handlers read. *)
Record upstream : Type := {
  status_code : Z;
  text : string
}.

(** [Response(response, status=..., mimetype=...)] *)
Record Response : Type := {
  response : string;
  status : Z;
  mimetype : string
}.

Definition network : Type := string -> option upstream.

(** How a handler ends: with its return value, with the exception of a
    [requests.get] that failed, or with an exception of the engine. *)
Inductive handled (A : Type) : Type :=
| Answer (a : A)
| RequestFailed (url : string)
| EngineRaised (e : exn).

Arguments Answer {A} a.
Arguments RequestFailed {A} url.
Arguments EngineRaised {A} e.

(** A handler's computation: from the URLs requested so far to those
    requested at its end and how it ended. *)
Definition io (A : Type) : Type := list string -> list string * handled A.

Definition io_ret {A : Type} (a : A) : io A := fun log => (log, Answer a).

Definition io_bind {A B : Type} (m : io A) (k : A -> io B) : io B :=
  fun log =>
    match m log with
    | (log', Answer a) => k a log'
    | (log', RequestFailed url) => (log', RequestFailed url)
    | (log', EngineRaised e) => (log', EngineRaised e)
    end.

Notation "x <~ m ;; k" := (io_bind m (fun x => k))
  (at level 61, m at next level, right associativity).

(** [requests.get(url)] *)
Definition requests_get (net : network) (url : string) : io upstream :=
  fun log =>
    ((log ++ [url])%list,
     match net url with
     | Some r => Answer r
     | None => RequestFailed url
     end).

(** A call into the engine. *)
Definition engine {A : Type} (r : result A) : io A :=
  fun log =>
    (log, match r with
          | Ok a => Answer a
          | Raise e => EngineRaised e
          end).

Section Handlers.

Context {rt : PyRuntime}.

Definition metrics (net : network) : io Response :=
  req_nodes <~ requests_get net URL_NODES ;;
  req_pods <~ requests_get net URL_PODS ;;
  let json_nodes := text req_nodes in
  let json_pods := text req_pods in
  prom_nodes <~ engine (trans_node_metrics json_nodes) ;;
  prom_pods <~ engine (trans_pod_metrics json_pods) ;;
  io_ret {| response := prom_nodes ++ newline ++ prom_pods;
            status := 200;
            mimetype := "text/plain" |}.

End Handlers.

Definition healthz (net : network) : io Response :=
  req_nodes <~ requests_get net URL_NODES ;;
  req_pods <~ requests_get net URL_PODS ;;
  let health := "ok" in
  let status := 200%Z in
  let (health, status) :=
    if negb (status_code req_nodes =? 200)%Z then ("failed", 503%Z)
    else (health, status) in
  let (health, status) :=
    if negb (status_code req_pods =? 200)%Z then ("failed", 503%Z)
    else (health, status) in
  io_ret {| response := health; status := status; mimetype := "text/plain" |}.

(** * Specification

    What the properties below are stated with: the meaning of a pattern, the
    outcomes of [val2base], the series lines of the exposition format, and
    the JSON texts used as examples. *)

(** ** The decoder's fuel *)

(** A scanner is productive on [s] when, given the fuel, it is not exhausted
    and any value it reads leaves a shorter text. *)
Definition productive (r : scan json) (s : string) : Prop :=
  r <> Exhausted /\
  forall v rest, r = Scanned v rest ->
                 (String.length rest < String.length s)%nat.

(** ** The meaning of a pattern *)

(** A text of ASCII digits only. *)
Fixpoint digits (s : string) : bool :=
  match s with
  | EmptyString => true
  | String c s' => is_digit c && digits s'
  end.

(** A text that is empty or starts with something other than a digit. *)
Definition starts_nondigit (s : string) : bool :=
  match s with
  | EmptyString => true
  | String c _ => negb (is_digit c)
  end.

(** What it is for an anchored pattern to match a text with given groups:
    any split of the text into digit runs and spellings of the letters, up
    to the end or a last line feed. *)
Inductive re_matches : pattern -> string -> list string -> Prop :=
| match_end : re_matches [] EmptyString []
| match_end_newline : re_matches [] newline []
| match_digits (ds : string) (p : pattern) (rest : string) (gs : list string) :
    ds <> EmptyString -> digits ds = true -> re_matches p rest gs ->
    re_matches (Digits :: p) (ds ++ rest) (ds :: gs)
| match_lit (c : ascii) (sp : string) (p : pattern) (rest : string)
    (gs : list string) :
    In sp (ci_spellings c) -> re_matches p rest gs ->
    re_matches (Lit c :: p) (sp ++ rest) gs.

Definition five_patterns : list pattern := [re_Ki; re_Mi; re_Gi; re_ms; re_m].

(** No spelling in the list is a proper prefix of a text another one starts. *)
Definition prefix_free (alts : list string) : Prop :=
  forall sp sp' r r', In sp alts -> In sp' alts -> sp ++ r = sp' ++ r' ->
                      sp = sp'.

(** The letters of the five patterns. *)
Definition pattern_letters : list ascii :=
  ["K"; "i"; "M"; "G"; "m"; "s"]%char.

(** A pattern built from those letters in which no digit group follows
    another: for such a pattern the greedy digit run is the only split. *)
Fixpoint unambiguous (p : pattern) : Prop :=
  match p with
  | [] => True
  | Digits :: p' =>
      match p' with
      | Digits :: _ => False
      | _ => True
      end /\ unambiguous p'
  | Lit c :: p' => In c pattern_letters /\ unambiguous p'
  end.

(** What each pattern asks for after its first digit group. *)
Definition tails : list pattern := map (@tl atom) five_patterns.

(** The outcome of [val2base] on [s], by the pattern that matches. *)
Inductive val2base_outcome (s : string) : result base -> Prop :=
| outcome_Ki (ds : string) :
    re_matches re_Ki s [ds] ->
    val2base_outcome s (Ok (BInt (int ds * 1024)))
| outcome_Mi (ds : string) :
    re_matches re_Mi s [ds] ->
    val2base_outcome s (Ok (BInt (int ds * (1024 * 1024))))
| outcome_Gi (ds : string) :
    re_matches re_Gi s [ds] ->
    val2base_outcome s (Ok (BInt (int ds * (1024 * 1024 * 1024))))
| outcome_ms (d1 d2 : string) :
    re_matches re_ms s [d1; d2] ->
    val2base_outcome s (Raise TypeError)
| outcome_m (ds : string) :
    re_matches re_m s [ds] ->
    val2base_outcome s (Ok (BInt (int ds * 60)))
| outcome_other :
    (forall p g, In p five_patterns -> ~ re_matches p s g) ->
    val2base_outcome s (Ok (BStr s)).

(** The reading of a pattern as a match of the entire text: as
    [re_matches], but the text must end where the pattern ends. *)
Inductive whole_match : pattern -> string -> list string -> Prop :=
| whole_end : whole_match [] EmptyString []
| whole_digits (ds : string) (p : pattern) (rest : string) (gs : list string) :
    ds <> EmptyString -> digits ds = true -> whole_match p rest gs ->
    whole_match (Digits :: p) (ds ++ rest) (ds :: gs)
| whole_lit (c : ascii) (sp : string) (p : pattern) (rest : string)
    (gs : list string) :
    In sp (ci_spellings c) -> whole_match p rest gs ->
    whole_match (Lit c :: p) (sp ++ rest) gs.

(** A text that holds a line feed. *)
Fixpoint has_newline (s : string) : bool :=
  match s with
  | EmptyString => false
  | String c s' => Ascii.eqb c "010"%char || has_newline s'
  end.

(** The lines of a text: what [text.split] gives with the line feed as
    the separator. *)
Fixpoint split_lines (s : string) : list string :=
  match s with
  | EmptyString => [EmptyString]
  | String c s' =>
      if Ascii.eqb c "010"%char then EmptyString :: split_lines s'
      else match split_lines s' with
           | l :: ls => String c l :: ls
           | [] => [String c EmptyString]
           end
  end.

(** None of the texts holds a line feed. *)
Definition no_line_feed (texts : list string) : bool :=
  negb (existsb has_newline texts).

(** A pair of lines neither of which holds a line feed. *)
Definition one_line (row : string * string) : Prop :=
  has_newline (fst row) = false /\ has_newline (snd row) = false.

(** ** The text exposition format

    A series line of the Prometheus text format, as the claim reads it: a
    metric name, the label pairs between braces, each a label name, an equals
    sign and a value between double quotes, separated by commas, then one
    space and the value.  Inside a label value a backslash, a double quote
    and a line feed must be written as an escape.  The value is a number.
    (The format's optional blanks and timestamp, which the renderers never
    write, are left out.) *)

Definition is_letter (c : ascii) : bool := is_upper c || is_lower c.

(** The first and the later characters of a metric name and of a label
    name. *)

Definition is_metric_start (c : ascii) : bool :=
  is_letter c || Ascii.eqb c "_"%char || Ascii.eqb c ":"%char.

Definition is_metric_char (c : ascii) : bool := is_metric_start c || is_digit c.

Definition is_label_start (c : ascii) : bool :=
  is_letter c || Ascii.eqb c "_"%char.

Definition is_label_char (c : ascii) : bool := is_label_start c || is_digit c.

(** [s] without a leading sign. *)
Definition strip_sign (s : string) : string :=
  match strip_any ["+"; "-"] s with
  | Some r => r
  | None => s
  end.

(** Digits, then optionally a point and digits, then optionally an
    exponent. *)
Definition is_decimal (s : string) : bool :=
  let (ip, r1) := span_digits s in
  truthy ip &&
  match
    match strip_prefix "." r1 with
    | Some r => let (fp, r') := span_digits r in
                if truthy fp then Some r' else None
    | None => Some r1
    end
  with
  | None => false
  | Some EmptyString => true
  | Some (String e r3) =>
      (Ascii.eqb e "e"%char || Ascii.eqb e "E"%char) &&
      let (xp, r4) := span_digits (strip_sign r3) in
      truthy xp && String.eqb r4 EmptyString
  end.

(** A value: a decimal number, an infinity or not-a-number. *)
Definition is_number (s : string) : bool :=
  existsb (String.eqb s) ["NaN"; "+Inf"; "-Inf"; "Inf"]
  || is_decimal (strip_sign s).

(** Where the reading of a series line stands. *)
Inductive line_state : Type :=
| MetricStart
| InMetric
| LabelStart
| InLabelName
| ExpectQuote
| InLabelValue
| Escaped
| AfterLabelValue
| AfterLabels.

(** [s] completes a series line read up to [st]. *)
Fixpoint series_from (st : line_state) (s : string) : bool :=
  match s with
  | EmptyString => false
  | String c s' =>
      match st with
      | MetricStart => is_metric_start c && series_from InMetric s'
      | InMetric =>
          if is_metric_char c then series_from InMetric s'
          else if Ascii.eqb c "{"%char then series_from LabelStart s'
          else if Ascii.eqb c " "%char then is_number s'
          else false
      | LabelStart =>
          if is_label_start c then series_from InLabelName s'
          else if Ascii.eqb c "}"%char then series_from AfterLabels s'
          else false
      | InLabelName =>
          if is_label_char c then series_from InLabelName s'
          else if Ascii.eqb c "="%char then series_from ExpectQuote s'
          else false
      | ExpectQuote => Ascii.eqb c "034"%char && series_from InLabelValue s'
      | InLabelValue =>
          if Ascii.eqb c "034"%char then series_from AfterLabelValue s'
          else if Ascii.eqb c "092"%char then series_from Escaped s'
          else if Ascii.eqb c "010"%char then false
          else series_from InLabelValue s'
      | Escaped =>
          (Ascii.eqb c "092"%char || Ascii.eqb c "034"%char
           || Ascii.eqb c "n"%char)
          && series_from InLabelValue s'
      | AfterLabelValue =>
          if Ascii.eqb c ","%char then series_from LabelStart s'
          else if Ascii.eqb c "}"%char then series_from AfterLabels s'
          else false
      | AfterLabels => Ascii.eqb c " "%char && is_number s'
      end
  end.

Definition exposition_line (s : string) : bool := series_from MetricStart s.

(** A label text that needs no escape. *)
Fixpoint label_safe (s : string) : bool :=
  match s with
  | EmptyString => true
  | String c s' =>
      negb (Ascii.eqb c "034"%char) && negb (Ascii.eqb c "092"%char)
      && negb (Ascii.eqb c "010"%char) && label_safe s'
  end.

(** The templates with their fields filled in as they are. *)
Definition node_series (kind node created timestamp window debugval value
  : string) : string :=
  "kube_metrics_server_node_" ++ kind ++ "{node=" ++ dquote ++ node ++ dquote
    ++ ",created=" ++ dquote ++ created ++ dquote
    ++ ",timestamp=" ++ dquote ++ timestamp ++ dquote
    ++ ",window=" ++ dquote ++ window ++ dquote
    ++ ",debugval=" ++ dquote ++ debugval ++ dquote ++ "} " ++ value.

Definition pod_series (kind pod container namespace created timestamp window
  debugval value : string) : string :=
  "kube_metrics_server_pod_" ++ kind ++ "{pod=" ++ dquote ++ pod ++ dquote
    ++ ",container=" ++ dquote ++ container ++ dquote
    ++ ",namespace=" ++ dquote ++ namespace ++ dquote
    ++ ",created=" ++ dquote ++ created ++ dquote
    ++ ",timestamp=" ++ dquote ++ timestamp ++ dquote
    ++ ",window=" ++ dquote ++ window ++ dquote
    ++ ",debugval=" ++ dquote ++ debugval ++ dquote ++ "} " ++ value.

(** ** JSON texts used as examples *)

(** A member of an object: the key between quotes, a colon and the value. *)
Definition member (key value : string) : string := quoted key ++ ":" ++ value.

(** One item that is an empty object. *)
Definition doc_empty_item : string := "{" ++ member "items" "[{}]" ++ "}".

(** One node whose cpu usage is written in minutes and seconds. *)
Definition doc_minutes_seconds : string :=
  "{" ++ member "items"
           ("[{" ++ member "metadata" "{}" ++ ","
              ++ member "usage" ("{" ++ member "cpu" (quoted "1m0s") ++ "}")
              ++ "}]") ++ "}".

(** One node with all its fields. *)
Definition doc_one_node : string :=
  "{" ++ member "items"
           ("[{" ++ member "metadata"
                      ("{" ++ member "name" (quoted "n1") ++ ","
                         ++ member "creationTimestamp" (quoted "2018") ++ "}")
              ++ "," ++ member "timestamp" (quoted "ts")
              ++ "," ++ member "window" (quoted "30s")
              ++ "," ++ member "usage"
                          ("{" ++ member "cpu" (quoted "250m") ++ ","
                             ++ member "memory" (quoted "2048Ki") ++ "}")
              ++ "}]") ++ "}".

(** One node whose name holds a double quote. *)
Definition doc_quoted_name : string :=
  "{" ++ member "items"
           ("[{" ++ member "metadata"
                      ("{" ++ member "name"
                                (quoted ("a" ++ backslash ++ dquote ++ "b"))
                         ++ "}") ++ ","
              ++ member "usage"
                   ("{" ++ member "cpu" (quoted "5m") ++ ","
                      ++ member "memory" (quoted "1Ki") ++ "}")
              ++ "}]") ++ "}".

(** One node whose name holds two line feeds, and between them the text of
    a series line of the mem family. *)
Definition doc_line_feed_name : string :=
  "{" ++ member "items"
           ("[{" ++ member "metadata"
                      ("{" ++ member "name"
                                (quoted ("a" ++ backslash
                                           ++ "nkube_metrics_server_node_mem 1"
                                           ++ backslash ++ "nb"))
                         ++ "}") ++ ","
              ++ member "usage"
                   ("{" ++ member "cpu" (quoted "5m") ++ ","
                      ++ member "memory" (quoted "1Ki") ++ "}")
              ++ "}]") ++ "}".

(** One pod with an empty list of containers and nothing else. *)
Definition doc_pod_no_metadata : string :=
  "{" ++ member "items" ("[{" ++ member "containers" "[]" ++ "}]") ++ "}".

(** One pod with metadata and an empty list of containers. *)
Definition doc_pod_no_containers : string :=
  "{" ++ member "items"
           ("[{" ++ member "metadata" ("{" ++ member "name" (quoted "p1") ++ "}")
              ++ "," ++ member "containers" "[]" ++ "}]") ++ "}".

(** One pod, in namespace ns, with two containers. *)
Definition doc_two_containers : string :=
  "{" ++ member "items"
           ("[{" ++ member "metadata"
                      ("{" ++ member "name" (quoted "p1") ++ ","
                         ++ member "namespace" (quoted "ns") ++ "}") ++ ","
              ++ member "containers"
                   ("[{" ++ member "name" (quoted "c1") ++ ","
                      ++ member "usage"
                           ("{" ++ member "cpu" (quoted "5m") ++ ","
                              ++ member "memory" (quoted "1Gi") ++ "}")
                      ++ "},{" ++ member "name" (quoted "c2") ++ ","
                      ++ member "usage"
                           ("{" ++ member "cpu" (quoted "250m") ++ ","
                              ++ member "memory" (quoted "2048Ki") ++ "}")
                      ++ "}]")
              ++ "}]") ++ "}".

(** ** The lines of a pod *)

Section PodRows.

Context {rt : PyRuntime}.

(** The lines of one pod: its labels, its containers, and the pair of lines
    of each container. *)
Definition pod_rows (pod : json) (rows : list (string * string)) : Prop :=
  exists lbl containers,
    pod_labels pod = Ok lbl /\ pod_containers pod = Ok containers /\
    Forall2 (fun c row => container_lines lbl c = Ok row) containers rows.

End PodRows.

(** ** Fields of an item *)

(** The value of a key of a dict, the empty string when it is absent: what
    [d.get(key, '')] gives. *)
Definition field (d : list (string * json)) (key : string) : json :=
  match dict_lookup key d with
  | Some v => v
  | None => JStr ""
  end.

(** The object a key of a dict holds: no member when the key is absent or
    holds something else. *)
Definition members (d : list (string * json)) (key : string)
  : list (string * json) :=
  match dict_lookup key d with
  | Some (JObj o) => o
  | _ => []
  end.

Section SeriesRows.

Context {rt : PyRuntime}.

(** The pair of lines of a node, field by field: the node is an object whose
    metadata and usage are objects and whose cpu and memory are strings; the
    labels are the texts of its name, creationTimestamp, timestamp and
    window, debugval is the usage as written and the value what [val2base]
    makes of it. *)
Definition node_row (node : json) (row : string * string) : Prop :=
  exists d md u sc sm vc vm,
    node = JObj d /\
    dict_lookup "metadata" d = Some (JObj md) /\
    dict_lookup "usage" d = Some (JObj u) /\
    field u "cpu" = JStr sc /\ field u "memory" = JStr sm /\
    val2base sc = Ok vc /\ val2base sm = Ok vm /\
    row = (node_series "cpu" (py_str (field md "name"))
             (py_str (field md "creationTimestamp"))
             (py_str (field d "timestamp")) (py_str (field d "window"))
             sc (base_str vc),
           node_series "mem" (py_str (field md "name"))
             (py_str (field md "creationTimestamp"))
             (py_str (field d "timestamp")) (py_str (field d "window"))
             sm (base_str vm)).

(** The pair of lines of a container of the pod with fields [d] and
    metadata [md]. *)
Definition container_row (d md : list (string * json)) (container : json)
  (row : string * string) : Prop :=
  exists cd u sc sm vc vm,
    container = JObj cd /\
    dict_lookup "usage" cd = Some (JObj u) /\
    field u "cpu" = JStr sc /\ field u "memory" = JStr sm /\
    val2base sc = Ok vc /\ val2base sm = Ok vm /\
    row = (pod_series "cpu" (py_str (field md "name"))
             (py_str (field cd "name")) (py_str (field md "namespace"))
             (py_str (field md "creationTimestamp"))
             (py_str (field d "timestamp")) (py_str (field d "window"))
             sc (base_str vc),
           pod_series "mem" (py_str (field md "name"))
             (py_str (field cd "name")) (py_str (field md "namespace"))
             (py_str (field md "creationTimestamp"))
             (py_str (field d "timestamp")) (py_str (field d "window"))
             sm (base_str vm)).

(** The containers of a pod with fields [d]: the elements of what its
    containers key holds, none when the key is absent. *)
Definition containers_of (d : list (string * json)) (containers : list json)
  : Prop :=
  match dict_lookup "containers" d with
  | Some c => py_iter c = Ok containers
  | None => containers = []
  end.

(** The pairs of lines of a pod, field by field: one pair for each of its
    containers, in their order. *)
Definition pod_row_list (pod : json) (rows : list (string * string)) : Prop :=
  exists d md containers,
    pod = JObj d /\
    dict_lookup "metadata" d = Some (JObj md) /\
    containers_of d containers /\
    Forall2 (container_row d md) containers rows.

(** The texts a renderer puts into the lines of an item: the labels and the
    two usages. *)
Definition usage_texts (item : list (string * json)) : list string :=
  map py_str [field (members item "usage") "cpu";
              field (members item "usage") "memory"].

Definition node_texts (node : json) : list string :=
  match node with
  | JObj d =>
      (map py_str [field (members d "metadata") "name";
                   field (members d "metadata") "creationTimestamp";
                   field d "timestamp"; field d "window"]
         ++ usage_texts d)%list
  | _ => []
  end.

Definition container_texts (container : json) : list string :=
  match container with
  | JObj cd => py_str (field cd "name") :: usage_texts cd
  | _ => []
  end.

Definition pod_texts (pod : json) : list string :=
  match pod with
  | JObj d =>
      (map py_str [field (members d "metadata") "name";
                   field (members d "metadata") "namespace";
                   field (members d "metadata") "creationTimestamp";
                   field d "timestamp"; field d "window"]
         ++ match pod_containers pod with
            | Ok containers => concat (map container_texts containers)
            | Raise _ => []
            end)%list
  | _ => []
  end.

End SeriesRows.

(** A character that starts a spelling of K, M or G; [val2base] converts
    nothing whose digits are followed by another character. *)
Definition starts_suffix (c : ascii) : bool :=
  existsb (fun a => Ascii.eqb a c)
    ["K"; "k"; "M"; "m"; "G"; "g"; ascii_of_nat 226]%char.

(** The eight header lines of the [/metrics] page. *)
Definition all_headers : list string :=
  (node_cpu_header ++ node_mem_header ++ pod_cpu_header ++ pod_mem_header)%list.

(** A network whose two pages answer with the given status codes and
    bodies, for the examples. *)
Definition two_pages (nodes pods : upstream) : network :=
  fun url =>
    if String.eqb url URL_NODES then Some nodes
    else if String.eqb url URL_PODS then Some pods
    else None.

(** The [/metrics] page of the one-node document and the two-container
    document. *)
Definition page_one_node_two_containers : string :=
  join newline
    (node_cpu_header
       ++ [node_series "cpu" "n1" "2018" "ts" "30s" "250m" "15000"]
       ++ node_mem_header
       ++ [node_series "mem" "n1" "2018" "ts" "30s" "2048Ki" "2097152"]
       ++ pod_cpu_header
       ++ [pod_series "cpu" "p1" "c1" "ns" "" "" "" "5m" "300";
           pod_series "cpu" "p1" "c2" "ns" "" "" "" "250m" "15000"]
       ++ pod_mem_header
       ++ [pod_series "mem" "p1" "c1" "ns" "" "" "" "1Gi" "1073741824";
           pod_series "mem" "p1" "c2" "ns" "" "" "" "2048Ki" "2097152"])%list.

(** A network on which every request fails. *)
Definition unreachable : network := fun _ => None.

(** * Properties *)

(** ** Lengths: what the scanners consume *)

Lemma skip_ws_length (s : string) :
  (String.length (skip_ws s) <= String.length s)%nat.
Proof.
  induction s as [|c s IH]; simpl; [lia|].
  destruct (is_ws c); simpl; lia.
Qed.

Lemma strip_prefix_length (p s r : string) :
  strip_prefix p s = Some r ->
  String.length s = (String.length p + String.length r)%nat.
Proof.
  revert s; induction p as [|a p IH]; intros s H; simpl in *.
  - now inversion H.
  - destruct s as [|b s]; [discriminate|].
    destruct (Ascii.eqb a b); [|discriminate].
    simpl; now rewrite (IH _ H).
Qed.

Lemma span_digits_length (s ds rest : string) :
  span_digits s = (ds, rest) ->
  String.length s = (String.length ds + String.length rest)%nat.
Proof.
  revert ds rest; induction s as [|c s IH]; intros ds rest H; simpl in *.
  - now inversion H.
  - destruct (is_digit c).
    + destruct (span_digits s) as [ds' rest'] eqn:E.
      inversion H; subst; simpl. now rewrite (IH _ _ eq_refl).
    + now inversion H.
Qed.

Lemma append_length (a b : string) :
  String.length (a ++ b) = (String.length a + String.length b)%nat.
Proof. induction a; simpl; congruence. Qed.

Lemma prepend_some (p : string) (r : option (string * string)) x rest :
  prepend p r = Some (x, rest) -> exists y, r = Some (y, rest).
Proof.
  destruct r as [[y r']|]; simpl; [|discriminate].
  intros H; inversion H; subst; now exists y.
Qed.

Lemma scanstring_length_bounded (n : nat) :
  forall s x rest, (String.length s <= n)%nat ->
    scanstring s = Some (x, rest) ->
    (String.length rest < String.length s)%nat.
Proof.
  induction n as [|n IH]; intros s x rest Hn H.
  - destruct s; [discriminate|simpl in Hn; lia].
  - destruct s as [|c s1]; [discriminate|].
    simpl in Hn. cbn [scanstring] in H.
    destruct (Ascii.eqb c "034").
    { inversion H; subst; simpl; lia. }
    destruct (Ascii.eqb c "092").
    2:{ destruct (code c <? 32)%nat; [discriminate|].
        apply prepend_some in H as [y H].
        apply IH in H; [simpl; lia|lia]. }
    destruct s1 as [|e s2]; [discriminate|].
    destruct (Ascii.eqb e "u").
    2:{ destruct (unescape e); [|discriminate].
        apply prepend_some in H as [y H].
        apply IH in H; simpl in *; lia. }
    destruct s2 as [|h1 [|h2 [|h3 [|h4 s6]]]]; try discriminate.
    destruct (hex4 h1 h2 h3 h4) as [hi|]; [|discriminate].
    assert (Hs6 : forall y, scanstring s6 = Some (y, rest) ->
                      (String.length rest < String.length s6)%nat).
    { intros y Hy. apply IH in Hy; simpl in *; lia. }
    destruct s6 as [|b [|u [|l1 [|l2 [|l3 [|l4 s12]]]]]];
      try (apply prepend_some in H as [y H]; apply Hs6 in H; simpl in *; lia).
    destruct (is_high_surrogate hi && Ascii.eqb b "092" && Ascii.eqb u "u").
    2:{ apply prepend_some in H as [y H]; apply Hs6 in H; simpl in *; lia. }
    destruct (hex4 l1 l2 l3 l4) as [lo|]; [|discriminate].
    destruct (is_low_surrogate lo).
    + apply prepend_some in H as [y H].
      apply IH in H; simpl in *; lia.
    + apply prepend_some in H as [y H]; apply Hs6 in H; simpl in *; lia.
Qed.

Lemma scanstring_length (s x rest : string) :
  scanstring s = Some (x, rest) ->
  (String.length rest < String.length s)%nat.
Proof. apply (scanstring_length_bounded (String.length s)); lia. Qed.

Lemma scan_integer_length (s integer rest : string) :
  scan_integer s = Some (integer, rest) ->
  (String.length rest < String.length s)%nat.
Proof.
  unfold scan_integer.
  destruct (span_digits s) as [ds r] eqn:E.
  apply span_digits_length in E.
  destruct ds as [|d ds']; [discriminate|].
  destruct (Ascii.eqb d "0"); intros H; inversion H; subst;
    simpl in E; rewrite ?append_length; lia.
Qed.

Lemma scan_frac_length (s frac rest : string) :
  scan_frac s = (frac, rest) ->
  (String.length rest <= String.length s)%nat.
Proof.
  unfold scan_frac.
  destruct (strip_prefix "." s) as [s1|] eqn:E.
  - apply strip_prefix_length in E.
    destruct (span_digits s1) as [ds r] eqn:E1.
    apply span_digits_length in E1.
    destruct ds; intros H; inversion H; subst; simpl in *; lia.
  - intros H; inversion H; lia.
Qed.

Lemma strip_any_length (alts : list string) (s r : string) :
  strip_any alts s = Some r -> (String.length r <= String.length s)%nat.
Proof.
  induction alts as [|p alts IH]; simpl; [discriminate|].
  destruct (strip_prefix p s) as [r'|] eqn:E; [|exact IH].
  intros H; inversion H; subst.
  apply strip_prefix_length in E; lia.
Qed.

Lemma scan_exp_length (s exp rest : string) :
  scan_exp s = (exp, rest) ->
  (String.length rest <= String.length s)%nat.
Proof.
  unfold scan_exp.
  destruct s as [|e s1]; [intros H; inversion H; simpl; lia|].
  destruct (Ascii.eqb e "e" || Ascii.eqb e "E").
  2:{ intros H; inversion H; lia. }
  assert (Hs : forall sign s2,
             match strip_any ["-"; "+"] s1 with
             | Some r => (substring 0 1 s1, r)
             | None => (EmptyString, s1)
             end = (sign, s2) ->
             (String.length s2 <= String.length s1)%nat).
  { intros sign s2. destruct (strip_any ["-"; "+"] s1) as [r|] eqn:E;
      intros H; inversion H; subst; [|lia].
    now apply strip_any_length in E. }
  destruct (match strip_any ["-"; "+"] s1 with
            | Some r => (substring 0 1 s1, r)
            | None => (EmptyString, s1)
            end) as [sign s2].
  specialize (Hs _ _ eq_refl).
  destruct (span_digits s2) as [ds r] eqn:E2.
  apply span_digits_length in E2.
  destruct ds; intros H; inversion H; subst; simpl in *; lia.
Qed.

Lemma scan_number_length (s : string) (v : json) (rest : string) :
  scan_number s = Some (v, rest) ->
  (String.length rest < String.length s)%nat.
Proof.
  unfold scan_number.
  assert (Hneg : forall neg s1,
             match strip_prefix "-" s with
             | Some r => (true, r)
             | None => (false, s)
             end = (neg, s1) ->
             (String.length s1 <= String.length s)%nat).
  { intros neg s1. destruct (strip_prefix "-" s) as [r|] eqn:E;
      intros H; inversion H; subst; [|lia].
    apply strip_prefix_length in E; lia. }
  destruct (match strip_prefix "-" s with
            | Some r => (true, r)
            | None => (false, s)
            end) as [neg s1].
  specialize (Hneg _ _ eq_refl).
  destruct (scan_integer s1) as [[integer s2]|] eqn:E1; [|discriminate].
  apply scan_integer_length in E1.
  destruct (scan_frac s2) as [frac s3] eqn:E2.
  apply scan_frac_length in E2.
  destruct (scan_exp s3) as [exp s4] eqn:E3.
  apply scan_exp_length in E3.
  destruct frac, exp; intros H; inversion H; subst; lia.
Qed.

Lemma scan_atom_length (s : string) (v : json) (rest : string) :
  scan_atom s = Scanned v rest ->
  (String.length rest < String.length s)%nat.
Proof.
  unfold scan_atom.
  repeat match goal with
  | |- context [strip_prefix ?p s] =>
      let E := fresh "E" in
      destruct (strip_prefix p s) eqn:E;
      [ intros H; inversion H; subst;
        apply strip_prefix_length in E; simpl in E; lia | ]
  | |- context [scan_number s] =>
      let E := fresh "E" in
      destruct (scan_number s) as [[n r]|] eqn:E;
      [ intros H; inversion H; subst; now apply scan_number_length in E | ]
  end.
  discriminate.
Qed.

Lemma scan_atom_not_exhausted (s : string) : scan_atom s <> Exhausted.
Proof.
  unfold scan_atom.
  repeat match goal with
  | |- context [strip_prefix ?p s] => destruct (strip_prefix p s)
  | |- context [scan_number s] => destruct (scan_number s) as [[n r]|]
  end; discriminate.
Qed.

(** ** The decoder never runs out of fuel *)

Lemma scan_once_S (fuel : nat) (c : ascii) (s1 : string) :
  scan_once (S fuel) (String c s1) =
  if Ascii.eqb c "034"%char then
    match scanstring s1 with
    | Some (str, rest) => Scanned (JStr str) rest
    | None => Invalid
    end
  else if Ascii.eqb c "{"%char then
    match skip_ws s1 with
    | EmptyString => Invalid
    | String d s2 =>
        if Ascii.eqb d "}"%char then Scanned (JObj []) s2
        else if Ascii.eqb d "034"%char then json_object fuel s2 []
        else Invalid
    end
  else if Ascii.eqb c "["%char then
    match strip_prefix "]" (skip_ws s1) with
    | Some rest => Scanned (JArr []) rest
    | None => json_array fuel (skip_ws s1) []
    end
  else scan_atom (String c s1).
Proof. reflexivity. Qed.

Lemma json_object_S (fuel : nat) (s : string) (pairs : list (string * json)) :
  json_object (S fuel) s pairs =
  match scanstring s with
  | None => Invalid
  | Some (key, s1) =>
      match strip_prefix ":" (skip_ws s1) with
      | None => Invalid
      | Some s2 =>
          match scan_once fuel (skip_ws s2) with
          | Scanned value s3 =>
              let pairs := (pairs ++ [(key, value)])%list in
              match skip_ws s3 with
              | EmptyString => Invalid
              | String d s4 =>
                  if Ascii.eqb d "}"%char then Scanned (JObj (dict pairs)) s4
                  else if Ascii.eqb d ","%char then
                    match strip_prefix dquote (skip_ws s4) with
                    | Some s5 => json_object fuel s5 pairs
                    | None => Invalid
                    end
                  else Invalid
              end
          | Invalid => Invalid
          | Exhausted => Exhausted
          end
      end
  end.
Proof. reflexivity. Qed.

Lemma json_array_S (fuel : nat) (s : string) (values : list json) :
  json_array (S fuel) s values =
  match scan_once fuel s with
  | Scanned value s1 =>
      let values := (values ++ [value])%list in
      match skip_ws s1 with
      | EmptyString => Invalid
      | String d s2 =>
          if Ascii.eqb d "]"%char then Scanned (JArr values) s2
          else if Ascii.eqb d ","%char then json_array fuel (skip_ws s2) values
          else Invalid
      end
  | Invalid => Invalid
  | Exhausted => Exhausted
  end.
Proof. reflexivity. Qed.

Lemma productive_invalid (s : string) : productive Invalid s.
Proof. split; [discriminate|intros v rest H; discriminate]. Qed.

Lemma productive_scanned (v : json) (rest s : string) :
  (String.length rest < String.length s)%nat -> productive (Scanned v rest) s.
Proof.
  intros H; split; [discriminate|].
  intros v' rest' E; inversion E; subst; exact H.
Qed.

Lemma productive_shorter (r : scan json) (s s' : string) :
  productive r s -> (String.length s <= String.length s')%nat ->
  productive r s'.
Proof.
  intros [H1 H2] L; split; [exact H1|].
  intros v rest E; specialize (H2 v rest E); lia.
Qed.

Lemma scanners_productive (fuel : nat) :
  (forall s, (2 * String.length s < fuel)%nat ->
             productive (scan_once fuel s) s) /\
  (forall s pairs, (2 * String.length s + 1 < fuel)%nat ->
             productive (json_object fuel s pairs) s) /\
  (forall s values, (2 * String.length s + 1 < fuel)%nat ->
             productive (json_array fuel s values) s).
Proof.
  induction fuel as [|fuel (IHv & IHo & IHa)].
  { repeat split; intros; lia. }
  split; [|split].
  - intros [|c s1] Hf; [apply productive_invalid|].
    rewrite scan_once_S. simpl String.length in *.
    destruct (Ascii.eqb c "034").
    { destruct (scanstring s1) as [[str rest]|] eqn:E;
        [|apply productive_invalid].
      apply scanstring_length in E.
      apply productive_scanned; simpl; lia. }
    destruct (Ascii.eqb c "{").
    { pose proof (skip_ws_length s1) as L.
      destruct (skip_ws s1) as [|d s2]; [apply productive_invalid|].
      simpl in L.
      destruct (Ascii.eqb d "}");
        [apply productive_scanned; simpl; lia|].
      destruct (Ascii.eqb d "034"); [|apply productive_invalid].
      apply productive_shorter with (s := s2); [|simpl; lia].
      apply IHo; lia. }
    destruct (Ascii.eqb c "[").
    { pose proof (skip_ws_length s1) as L.
      destruct (strip_prefix "]" (skip_ws s1)) as [rest|] eqn:E.
      - apply strip_prefix_length in E.
        apply productive_scanned; simpl in *; lia.
      - apply productive_shorter with (s := skip_ws s1); [|simpl; lia].
        apply IHa; lia. }
    split.
    + apply scan_atom_not_exhausted.
    + intros v rest E. now apply scan_atom_length in E.
  - intros s pairs Hf. rewrite json_object_S.
    destruct (scanstring s) as [[key s1]|] eqn:E; [|apply productive_invalid].
    apply scanstring_length in E.
    pose proof (skip_ws_length s1) as L1.
    destruct (strip_prefix ":" (skip_ws s1)) as [s2|] eqn:E2;
      [|apply productive_invalid].
    apply strip_prefix_length in E2. simpl in E2.
    pose proof (skip_ws_length s2) as L2.
    destruct (IHv (skip_ws s2)) as [Hx Hl]; [lia|].
    destruct (scan_once fuel (skip_ws s2)) as [value s3| |] eqn:E3;
      [|apply productive_invalid|congruence].
    specialize (Hl _ _ eq_refl).
    pose proof (skip_ws_length s3) as L3.
    cbv zeta.
    destruct (skip_ws s3) as [|d s4]; [apply productive_invalid|].
    simpl in L3.
    destruct (Ascii.eqb d "}"); [apply productive_scanned; lia|].
    destruct (Ascii.eqb d ","); [|apply productive_invalid].
    pose proof (skip_ws_length s4) as L4.
    destruct (strip_prefix dquote (skip_ws s4)) as [s5|] eqn:E5;
      [|apply productive_invalid].
    apply strip_prefix_length in E5. simpl in E5.
    apply productive_shorter with (s := s5); [|lia].
    apply IHo; lia.
  - intros s values Hf. rewrite json_array_S.
    destruct (IHv s) as [Hx Hl]; [lia|].
    destruct (scan_once fuel s) as [value s1| |] eqn:E;
      [|apply productive_invalid|congruence].
    specialize (Hl _ _ eq_refl).
    pose proof (skip_ws_length s1) as L1.
    cbv zeta.
    destruct (skip_ws s1) as [|d s2]; [apply productive_invalid|].
    simpl in L1.
    destruct (Ascii.eqb d "]"); [apply productive_scanned; lia|].
    destruct (Ascii.eqb d ","); [|apply productive_invalid].
    pose proof (skip_ws_length s2) as L2.
    apply productive_shorter with (s := skip_ws s2); [|lia].
    apply IHa; lia.
Qed.

Lemma scan_once_enough (s : string) :
  scan_once (2 * String.length s + 1) s <> Exhausted.
Proof.
  destruct (scanners_productive (2 * String.length s + 1)) as (H & _ & _).
  apply H; lia.
Qed.

(** [json.loads] returns a value or raises [ValueError]. *)
Lemma json_loads_total (s : string) :
  (exists v, json_loads s = Ok v) \/ json_loads s = Raise ValueError.
Proof.
  unfold json_loads.
  pose proof (scan_once_enough (skip_ws s)) as H.
  destruct (scan_once _ (skip_ws s)) as [v rest| |]; [| now right | congruence].
  destruct (skip_ws rest); [left; now exists v | now right].
Qed.

(** [json2dict] returns on every text. *)
Lemma json2dict_total (data : string) : exists v, json2dict data = Ok v.
Proof.
  unfold json2dict.
  destruct (json_loads_total data) as [[v E]|E]; rewrite E; eauto.
Qed.

(** ** Regular expressions: the matcher against the meaning of a pattern *)

Lemma strip_prefix_spec (p s r : string) :
  strip_prefix p s = Some r <-> s = p ++ r.
Proof.
  revert s; induction p as [|a p IH]; intros s; simpl.
  - split; intros H; congruence.
  - destruct s as [|b s]; [split; discriminate|].
    destruct (Ascii.eqb_spec a b) as [->|N].
    + rewrite IH. split; intros H; congruence.
    + split; [discriminate|]. intros H; congruence.
Qed.

Lemma strip_any_sound (alts : list string) (s r : string) :
  strip_any alts s = Some r -> exists sp, In sp alts /\ s = sp ++ r.
Proof.
  induction alts as [|p alts IH]; simpl; [discriminate|].
  destruct (strip_prefix p s) as [r'|] eqn:E.
  - intros H; inversion H; subst. apply strip_prefix_spec in E. eauto.
  - intros H. destruct (IH H) as (sp & I & Es). eauto.
Qed.

Lemma append_inv_head (a r r' : string) : a ++ r = a ++ r' -> r = r'.
Proof. induction a; simpl; intros H; [assumption|]. inversion H; auto. Qed.

Lemma strip_any_complete (alts : list string) (sp rest : string) :
  prefix_free alts -> In sp alts -> strip_any alts (sp ++ rest) = Some rest.
Proof.
  induction alts as [|p alts IH]; intros PF I; [destruct I|].
  simpl. destruct (strip_prefix p (sp ++ rest)) as [r'|] eqn:E.
  - apply strip_prefix_spec in E.
    assert (sp = p) by (apply (PF sp p rest r'); simpl; auto).
    subst. now apply append_inv_head in E; subst.
  - destruct I as [->|I].
    + assert (strip_prefix sp (sp ++ rest) = Some rest)
        by now apply strip_prefix_spec.
      congruence.
    + apply IH; [|assumption].
      intros a b r r' Ia Ib. apply PF; simpl; auto.
Qed.

Lemma span_digits_spec (s ds rest : string) :
  span_digits s = (ds, rest) ->
  s = ds ++ rest /\ digits ds = true /\ starts_nondigit rest = true.
Proof.
  revert ds rest; induction s as [|c s IH]; intros ds rest H; simpl in H.
  - inversion H; subst; auto.
  - destruct (is_digit c) eqn:D.
    + destruct (span_digits s) as [ds' rest'].
      inversion H; subst. destruct (IH _ _ eq_refl) as (-> & Hd & Hn).
      simpl. rewrite D, Hd. auto.
    + inversion H; subst; simpl. rewrite D. auto.
Qed.

Lemma span_digits_app (ds rest : string) :
  digits ds = true -> starts_nondigit rest = true ->
  span_digits (ds ++ rest) = (ds, rest).
Proof.
  intros Hd Hn. induction ds as [|c ds IH]; simpl in *.
  - destruct rest as [|c r]; [reflexivity|].
    simpl in *. now destruct (is_digit c).
  - apply andb_true_iff in Hd as [Hc Hd].
    now rewrite Hc, (IH Hd).
Qed.

Lemma re_search_sound (p : pattern) :
  forall s gs, re_search p s = Some gs -> re_matches p s gs.
Proof.
  induction p as [|[|c] p IH]; intros s gs H; cbn [re_search] in H.
  - destruct s as [|c [|d s]]; simpl in H; try discriminate.
    + inversion H; constructor.
    + destruct (Ascii.eqb_spec c "010"); [|discriminate].
      subst; inversion H; constructor.
  - destruct (span_digits s) as [ds rest] eqn:E.
    apply span_digits_spec in E as (-> & Hd & _).
    destruct ds as [|d ds]; [discriminate|].
    destruct (re_search p rest) as [gs'|] eqn:E; [|discriminate].
    inversion H; subst. constructor; [discriminate|assumption|auto].
  - destruct (strip_any (ci_spellings c) s) as [rest|] eqn:E; [|discriminate].
    apply strip_any_sound in E as (sp & I & ->).
    constructor; auto.
Qed.

Ltac split_cases :=
  repeat match goal with
  | H : _ \/ _ |- _ => destruct H
  | H : False |- _ => destruct H
  end; subst.

Ltac spellings :=
  repeat match goal with
  | H : In _ pattern_letters |- _ => cbv in H; split_cases
  end;
  repeat match goal with
  | H : In _ (ci_spellings _) |- _ => cbv in H; split_cases
  end.

Lemma letters_prefix_free (c : ascii) :
  In c pattern_letters -> prefix_free (ci_spellings c).
Proof.
  intros I sp sp' r r' H H' E.
  spellings; simpl in E; try reflexivity; try discriminate E.
Qed.

Lemma letters_nondigit (c : ascii) (sp rest : string) :
  In c pattern_letters -> In sp (ci_spellings c) ->
  starts_nondigit (sp ++ rest) = true.
Proof. intros I H. spellings; reflexivity. Qed.

Lemma re_matches_starts_nondigit (p : pattern) (s : string) (gs : list string) :
  match p with Digits :: _ => False | _ => True end ->
  unambiguous p -> re_matches p s gs -> starts_nondigit s = true.
Proof.
  intros Hp U M. destruct M; try reflexivity; [destruct Hp|].
  destruct U as [I _]. eapply letters_nondigit; eauto.
Qed.

Lemma re_search_complete (p : pattern) (s : string) (gs : list string) :
  unambiguous p -> re_matches p s gs -> re_search p s = Some gs.
Proof.
  intros U M. induction M as [| |ds p rest gs N D M IH|c sp p rest gs I M IH].
  - reflexivity.
  - reflexivity.
  - destruct U as [Hp U]. cbn [re_search].
    rewrite span_digits_app;
      [|assumption|eapply re_matches_starts_nondigit; eauto].
    destruct ds; [congruence|]. now rewrite (IH U).
  - destruct U as [L U]. cbn [re_search].
    rewrite strip_any_complete by auto using letters_prefix_free.
    exact (IH U).
Qed.

Lemma five_unambiguous (p : pattern) : In p five_patterns -> unambiguous p.
Proof.
  intros I. repeat (destruct I as [<-|I]; [cbv; tauto|]). destruct I.
Qed.

(** ** The five patterns exclude one another *)

Lemma lit_split (c : ascii) (t : pattern) (s : string) (gs : list string) :
  re_matches (Lit c :: t) s gs ->
  exists sp r, In sp (ci_spellings c) /\ s = sp ++ r /\ re_matches t r gs.
Proof. intros H; inversion H; subst; eauto. Qed.

Lemma digits_first (ds x : string) :
  ds <> EmptyString -> digits ds = true -> starts_nondigit (ds ++ x) = false.
Proof.
  destruct ds as [|c ds]; [congruence|]. simpl. intros _ H.
  apply andb_true_iff in H as [-> _]. reflexivity.
Qed.

Lemma digit_group_first (t : pattern) (s : string) (gs : list string) :
  re_matches (Digits :: t) s gs -> starts_nondigit s = false.
Proof. intros H; inversion H; subst. now apply digits_first. Qed.

Lemma end_split (s : string) (gs : list string) :
  re_matches [] s gs -> s = EmptyString \/ s = newline.
Proof. intros H; inversion H; auto. Qed.

Lemma tails_exclusive (t t' : pattern) (r : string) (g g' : list string) :
  In t tails -> In t' tails ->
  re_matches t r g -> re_matches t' r g' -> t = t'.
Proof.
  intros I I' M M'. cbv in I, I'.
  split_cases; try reflexivity; exfalso.
  all: apply lit_split in M as (sp & r1 & S1 & -> & M);
       apply lit_split in M' as (sp' & r1' & S1' & E & M').
  all: spellings; simpl in E; try discriminate E.
  all: injection E as E; subst.
  all: try (apply lit_split in M as (sp & r2 & S2 & -> & M)).
  all: try (apply lit_split in M' as (sp' & r2' & S2' & E & M')).
  all: try (apply digit_group_first in M).
  all: try (apply digit_group_first in M').
  all: try (apply end_split in M).
  all: try (apply end_split in M').
  all: spellings; split_cases; discriminate.
Qed.

Lemma digit_group_split (t : pattern) (s : string) (gs : list string) :
  unambiguous (Digits :: t) -> re_matches (Digits :: t) s gs ->
  exists ds r gs', gs = ds :: gs' /\ ds <> EmptyString /\
                   span_digits s = (ds, r) /\ re_matches t r gs'.
Proof.
  intros [Hp U] M. inversion M; subst.
  exists ds, rest, gs0. repeat split; auto.
  apply span_digits_app; [assumption|].
  eapply re_matches_starts_nondigit; eauto.
Qed.

Lemma five_head (p : pattern) :
  In p five_patterns -> exists t, p = Digits :: t /\ In t tails.
Proof.
  intros I. cbv in I. split_cases; eexists; (split; [reflexivity|]);
    cbv; tauto.
Qed.

Lemma five_exclusive (p q : pattern) (s : string) (g g' : list string) :
  In p five_patterns -> In q five_patterns ->
  re_matches p s g -> re_matches q s g' -> p = q.
Proof.
  intros Ip Iq Mp Mq.
  pose proof (five_unambiguous _ Ip) as Up.
  pose proof (five_unambiguous _ Iq) as Uq.
  destruct (five_head _ Ip) as (t & -> & It).
  destruct (five_head _ Iq) as (t' & -> & It').
  destruct (digit_group_split _ _ _ Up Mp) as (ds & r & gs & _ & _ & E & M).
  destruct (digit_group_split _ _ _ Uq Mq) as (ds' & r' & gs' & _ & _ & E' & M').
  rewrite E in E'. inversion E'; subst.
  f_equal. eapply tails_exclusive; eauto.
Qed.

Lemma five_groups_unique (p : pattern) (s : string) (g g' : list string) :
  In p five_patterns -> re_matches p s g -> re_matches p s g' -> g = g'.
Proof.
  intros I M M'. apply five_unambiguous in I.
  apply (re_search_complete _ _ _ I) in M, M'. congruence.
Qed.

Lemma re_search_none (p : pattern) (s : string) :
  In p five_patterns -> re_search p s = None ->
  forall g, ~ re_matches p s g.
Proof.
  intros I E g M. apply five_unambiguous in I.
  apply (re_search_complete _ _ _ I) in M. congruence.
Qed.

(** ** What [val2base] returns *)

Lemma one_group (p : pattern) (s : string) (g : list string) :
  In p [re_Ki; re_Mi; re_Gi; re_m] -> re_matches p s g ->
  exists ds, g = [ds] /\ ds <> EmptyString.
Proof.
  intros I M. cbv in I. split_cases.
  all: inversion M; subst.
  all: repeat match goal with
       | H : re_matches (_ :: _) _ _ |- _ => inversion H; clear H; subst
       | H : re_matches [] _ _ |- _ => inversion H; clear H; subst
       end; eauto.
Qed.

Lemma two_groups (s : string) (g : list string) :
  re_matches re_ms s g ->
  exists d1 d2, g = [d1; d2] /\ d1 <> EmptyString /\ d2 <> EmptyString.
Proof.
  intros M. inversion M; subst.
  repeat match goal with
  | H : re_matches (_ :: _) _ _ |- _ => inversion H; clear H; subst
  | H : re_matches [] _ _ |- _ => inversion H; clear H; subst
  end; eauto.
Qed.

Lemma truthy_nonempty (s : string) : s <> EmptyString -> truthy s = true.
Proof. destruct s; [congruence|reflexivity]. Qed.

Ltac search_pattern p s :=
  let g := fresh "g" in
  let E := fresh "E" in
  destruct (re_search p s) as [g|] eqn:E;
  [ apply re_search_sound in E;
    first
      [ destruct (one_group p s g) as (? & -> & ?);
        [cbv; tauto | assumption | ]
      | destruct (two_groups s g) as (? & ? & -> & ? & ?); [assumption | ] ];
    cbn [matched1 matched2 groups group Nat.sub nth];
    rewrite ?truthy_nonempty by assumption;
    cbn [andb]
  | cbn [matched1 matched2] ].

Lemma val2base_outcome_holds (s : string) : val2base_outcome s (val2base s).
Proof.
  unfold val2base.
  search_pattern re_Ki s; [now apply outcome_Ki|].
  search_pattern re_Mi s; [now apply outcome_Mi|].
  search_pattern re_Gi s; [now apply outcome_Gi|].
  search_pattern re_ms s; [now eapply outcome_ms; eauto|].
  search_pattern re_m s; [now apply outcome_m|].
  apply outcome_other. intros p g I. cbv [five_patterns] in I.
  simpl in I. split_cases; apply re_search_none; auto; cbv; tauto.
Qed.

Ltac in_five := cbv; tauto.

Lemma val2base_outcome_unique (s : string) (r : result base) :
  val2base_outcome s r -> val2base s = r.
Proof.
  intros H. pose proof (val2base_outcome_holds s) as H'.
  destruct H; inversion H';
    try (exfalso;
         match goal with
         | N : forall p g, In p five_patterns -> ~ _,
           M : re_matches ?p _ _ |- _ =>
             apply (N p _ ltac:(in_five) M)
         end);
    try congruence;
    match goal with
    | M1 : re_matches ?p s ?g, M2 : re_matches ?q s ?g' |- _ =>
        let E := fresh "E" in
        first
          [ assert (E : p = q)
              by (eapply five_exclusive; [| |exact M1|exact M2]; in_five);
            cbv in E; discriminate E
          | assert (E : g = g')
              by (eapply five_groups_unique; [|exact M1|exact M2]; in_five);
            inversion E; subst; reflexivity ]
    end.
Qed.

Lemma append_empty (s : string) : s ++ EmptyString = s.
Proof. induction s; simpl; congruence. Qed.

(** A digit run followed by a suffix matches the suffix's pattern. *)
Lemma suffix_matches (ds : string) (sp1 sp2 : string) (c1 c2 : ascii) :
  ds <> EmptyString -> digits ds = true ->
  In sp1 (ci_spellings c1) -> In sp2 (ci_spellings c2) ->
  re_matches [Digits; Lit c1; Lit c2] (ds ++ sp1 ++ sp2) [ds].
Proof.
  intros N D I1 I2. constructor; auto. constructor; auto.
  rewrite <- (append_empty sp2).
  constructor; auto. constructor.
Qed.

Lemma minutes_match (ds sp : string) :
  ds <> EmptyString -> digits ds = true -> In sp (ci_spellings "m") ->
  re_matches re_m (ds ++ sp) [ds].
Proof.
  intros N D I. constructor; auto.
  rewrite <- (append_empty sp).
  constructor; auto. constructor.
Qed.

Lemma minutes_seconds_match (d1 d2 : string) :
  d1 <> EmptyString -> digits d1 = true ->
  d2 <> EmptyString -> digits d2 = true ->
  re_matches re_ms (d1 ++ "m" ++ d2 ++ "s") [d1; d2].
Proof.
  intros N1 D1 N2 D2. constructor; auto.
  change ("m" ++ d2 ++ "s") with ("m" ++ (d2 ++ "s")).
  constructor; [cbv; tauto|].
  constructor; auto.
  change "s" with ("s" ++ EmptyString).
  constructor; [cbv; tauto|constructor].
Qed.

Lemma has_newline_app (a b : string) :
  has_newline (a ++ b) = has_newline a || has_newline b.
Proof.
  induction a as [|c a IH]; simpl; [reflexivity|].
  now rewrite IH, orb_assoc.
Qed.

Lemma digits_no_newline (ds : string) :
  digits ds = true -> has_newline ds = false.
Proof.
  induction ds as [|c ds IH]; simpl; [reflexivity|].
  intros H. apply andb_true_iff in H as [Hc Hd].
  rewrite (IH Hd), orb_false_r.
  destruct (Ascii.eqb_spec c "010"); [subst; discriminate|reflexivity].
Qed.

Lemma whole_match_no_newline (p : pattern) (s : string) (g : list string) :
  unambiguous p -> whole_match p s g -> has_newline s = false.
Proof.
  intros U W. induction W as [|ds p rest gs N D W IH|c sp p rest gs I W IH].
  - reflexivity.
  - destruct U as [_ U].
    now rewrite has_newline_app, digits_no_newline, IH.
  - destruct U as [L U]. rewrite has_newline_app, (IH U), orb_false_r.
    spellings; reflexivity.
Qed.

Lemma append_assoc (a b c : string) : (a ++ b) ++ c = a ++ b ++ c.
Proof. induction a; simpl; congruence. Qed.

Lemma whole_match_matches (p : pattern) (s : string) (g : list string) :
  whole_match p s g -> re_matches p s g /\ re_matches p (s ++ newline) g.
Proof.
  induction 1 as [|ds p rest gs N D W [IH1 IH2]|c sp p rest gs I W [IH1 IH2]].
  - split; constructor.
  - rewrite append_assoc. split; constructor; auto.
  - rewrite append_assoc. split; constructor; auto.
Qed.

Lemma re_matches_whole (p : pattern) (s : string) (g : list string) :
  re_matches p s g <->
  whole_match p s g \/ exists s0, s = s0 ++ newline /\ whole_match p s0 g.
Proof.
  split.
  - induction 1 as [| |ds p rest gs N D M IH|c sp p rest gs I M IH].
    + left; constructor.
    + right; exists EmptyString; split; [reflexivity|constructor].
    + destruct IH as [W|(s0 & -> & W)].
      * left; constructor; auto.
      * right; exists (ds ++ s0). rewrite append_assoc.
        split; [reflexivity|constructor; auto].
    + destruct IH as [W|(s0 & -> & W)].
      * left; constructor; auto.
      * right; exists (sp ++ s0). rewrite append_assoc.
        split; [reflexivity|constructor; auto].
  - intros [W|(s0 & -> & W)]; now apply whole_match_matches in W.
Qed.

Lemma re_search_matches (p : pattern) (s : string) (g : list string) :
  In p five_patterns -> (re_search p s = Some g <-> re_matches p s g).
Proof.
  intros I; split; [apply re_search_sound|].
  apply re_search_complete, five_unambiguous, I.
Qed.

(** ** The claims about [val2base] *)

(** C2.  The claim: on digits, m, digits, s, [val2base] returns the integer
    minutes*60 + seconds, and 300 on 5m0s.  The code adds the second group,
    a string, to an integer: on every text of that form, 5m0s included,
    [val2base] raises [TypeError] and returns nothing. *)
Theorem val2base_minutes_seconds_raises :
  val2base "5m0s" = Raise TypeError /\
  forall d1 d2 : string,
    d1 <> EmptyString -> digits d1 = true ->
    d2 <> EmptyString -> digits d2 = true ->
    val2base (d1 ++ "m" ++ d2 ++ "s") = Raise TypeError.
Proof.
  split; [reflexivity|].
  intros d1 d2 N1 D1 N2 D2.
  apply val2base_outcome_unique.
  apply outcome_ms with (d1 := d1) (d2 := d2).
  now apply minutes_seconds_match.
Qed.

(** The same at 12m30s. *)
Lemma val2base_minutes_seconds_raises_at_12m30s :
  val2base ("12" ++ "m" ++ "30" ++ "s") = Raise TypeError.
Proof.
  apply (proj2 val2base_minutes_seconds_raises "12" "30");
    [discriminate|reflexivity|discriminate|reflexivity].
Defined.

(** C5.  [val2base] maps 15Ki to 15360, 1Mi to 1048576, 1Gi to 1073741824
    and 5m to 300; in general a digit run followed by Ki, Mi, Gi or m to the
    number times 1024, 1024^2, 1024^3 or 60; and it returns a text that none
    of the five patterns matches unchanged, as it does abc and the empty
    text. *)
Theorem val2base_units :
  val2base "15Ki" = Ok (BInt 15360) /\
  val2base "1Mi" = Ok (BInt 1048576) /\
  val2base "1Gi" = Ok (BInt 1073741824) /\
  val2base "5m" = Ok (BInt 300) /\
  (forall ds : string, ds <> EmptyString -> digits ds = true ->
     val2base (ds ++ "Ki") = Ok (BInt (int ds * 1024)) /\
     val2base (ds ++ "Mi") = Ok (BInt (int ds * (1024 * 1024))) /\
     val2base (ds ++ "Gi") = Ok (BInt (int ds * (1024 * 1024 * 1024))) /\
     val2base (ds ++ "m") = Ok (BInt (int ds * 60))) /\
  (forall s : string,
     (forall p g, In p five_patterns -> ~ re_matches p s g) ->
     val2base s = Ok (BStr s)) /\
  val2base "abc" = Ok (BStr "abc") /\
  val2base "" = Ok (BStr "").
Proof.
  repeat split; try reflexivity.
  - apply val2base_outcome_unique, outcome_Ki.
    apply (suffix_matches ds "K" "i"); auto; cbv; tauto.
  - apply val2base_outcome_unique, outcome_Mi.
    apply (suffix_matches ds "M" "i"); auto; cbv; tauto.
  - apply val2base_outcome_unique, outcome_Gi.
    apply (suffix_matches ds "G" "i"); auto; cbv; tauto.
  - apply val2base_outcome_unique, outcome_m.
    apply minutes_match; auto; cbv; tauto.
  - intros s H. now apply val2base_outcome_unique, outcome_other.
Qed.

(** The general rules at the digit run 42. *)
Lemma val2base_units_at_42 :
  val2base ("42" ++ "Ki") = Ok (BInt (int "42" * 1024)) /\
  val2base ("42" ++ "Mi") = Ok (BInt (int "42" * (1024 * 1024))) /\
  val2base ("42" ++ "Gi") = Ok (BInt (int "42" * (1024 * 1024 * 1024))) /\
  val2base ("42" ++ "m") = Ok (BInt (int "42" * 60)).
Proof.
  apply (proj1 (proj2 (proj2 (proj2 (proj2 val2base_units)))) "42");
    [discriminate|reflexivity].
Defined.

(** C6, the claim as stated fails: the text 15Ki followed by a line feed is
    not wholly matched by any of the five patterns, and [val2base] still
    converts it. *)
Lemma val2base_newline_converted :
  val2base ("15Ki" ++ newline) = Ok (BInt 15360) /\
  forall p g, In p five_patterns -> ~ whole_match p ("15Ki" ++ newline) g.
Proof.
  split; [reflexivity|].
  intros p g I W.
  apply whole_match_no_newline in W; [discriminate|].
  now apply five_unambiguous.
Qed.

(** C6, amended.  Each of the five patterns is found exactly when it matches
    the entire text or the entire text before one final line feed (letters
    compared without regard to case); [val2base] converts a text only when
    one of them is found; at most one of them is found in any text; and a
    text in which none is found is returned unchanged. *)
Theorem val2base_patterns_anchored (s : string) :
  (forall p g, In p five_patterns ->
     (re_search p s = Some g <->
      whole_match p s g \/
      exists s0, s = s0 ++ newline /\ whole_match p s0 g)) /\
  (forall n, val2base s = Ok (BInt n) ->
     exists p g, In p five_patterns /\ re_search p s = Some g) /\
  (forall p q, In p five_patterns -> In q five_patterns ->
     re_search p s <> None -> re_search q s <> None -> p = q) /\
  ((forall p, In p five_patterns -> re_search p s = None) ->
   val2base s = Ok (BStr s)).
Proof.
  split; [|split; [|split]].
  - intros p g I. rewrite <- re_matches_whole. now apply re_search_matches.
  - intros n E. pose proof (val2base_outcome_holds s) as O.
    rewrite E in O. inversion O; subst;
      match goal with
      | M : re_matches ?p s ?g |- _ =>
          exists p, g; split; [in_five|];
          apply re_search_matches; [in_five|exact M]
      end.
  - intros p q Ip Iq Np Nq.
    destruct (re_search p s) as [g|] eqn:Ep; [|congruence].
    destruct (re_search q s) as [g'|] eqn:Eq; [|congruence].
    apply re_search_sound in Ep, Eq.
    eapply five_exclusive; eauto.
  - intros H. apply val2base_outcome_unique, outcome_other.
    intros p g I. apply re_search_none; auto.
Qed.

(** The converted text 15Ki with a final line feed is one in which a
    pattern is found. *)
Lemma val2base_patterns_anchored_at_15Ki_newline :
  exists p g, In p five_patterns /\
              re_search p ("15Ki" ++ newline) = Some g.
Proof.
  apply (proj1 (proj2 (val2base_patterns_anchored ("15Ki" ++ newline)))
           15360%Z).
  reflexivity.
Defined.

(** ** The claims about [json2dict] *)

Lemma json_array_list (fuel : nat) :
  forall s values v rest,
    json_array fuel s values = Scanned v rest -> exists l, v = JArr l.
Proof.
  induction fuel as [|fuel IH]; intros s values v rest H; [discriminate|].
  rewrite json_array_S in H.
  destruct (scan_once fuel s) as [value s1| |]; try discriminate.
  cbv zeta in H.
  destruct (skip_ws s1) as [|d s2]; [discriminate|].
  destruct (Ascii.eqb d "]"); [inversion H; eauto|].
  destruct (Ascii.eqb d ","); [eauto|discriminate].
Qed.

Lemma scan_number_not_dict (s : string) (v : json) (rest : string) :
  scan_number s = Some (v, rest) -> forall d, v <> JObj d.
Proof.
  unfold scan_number.
  destruct (match strip_prefix "-" s with
            | Some r => (true, r)
            | None => (false, s)
            end) as [neg s1].
  destruct (scan_integer s1) as [[integer s2]|]; [|discriminate].
  destruct (scan_frac s2) as [frac s3].
  destruct (scan_exp s3) as [exp s4].
  destruct frac, exp; intros H d; inversion H; discriminate.
Qed.

Lemma scan_atom_not_dict (s : string) (v : json) (rest : string) :
  scan_atom s = Scanned v rest -> forall d, v <> JObj d.
Proof.
  unfold scan_atom.
  repeat match goal with
  | |- context [strip_prefix ?p s] =>
      destruct (strip_prefix p s);
      [ intros H d; inversion H; discriminate | ]
  | |- context [scan_number s] =>
      let E := fresh "E" in
      destruct (scan_number s) as [[n r]|] eqn:E;
      [ intros H d; inversion H; subst;
        now apply (scan_number_not_dict _ _ _ E) | ]
  end.
  discriminate.
Qed.

(** Only a text that starts with a brace is read as a [dict]. *)
Lemma scan_once_dict (fuel : nat) (s : string) (d : list (string * json))
  (rest : string) :
  scan_once fuel s = Scanned (JObj d) rest -> exists s1, s = String "{" s1.
Proof.
  destruct fuel as [|fuel]; [discriminate|].
  destruct s as [|c s1]; [discriminate|].
  rewrite scan_once_S.
  destruct (Ascii.eqb c "034").
  { destruct (scanstring s1) as [[str r]|]; discriminate. }
  destruct (Ascii.eqb_spec c "{"); [subst; eauto|].
  destruct (Ascii.eqb c "[").
  { destruct (strip_prefix "]" (skip_ws s1)); [discriminate|].
    intros H. apply json_array_list in H as [l H]. discriminate. }
  intros H. now apply scan_atom_not_dict with (d := d) in H.
Qed.

Lemma json_loads_dict (data : string) (d : list (string * json)) :
  json_loads data = Ok (JObj d) ->
  exists rest, skip_ws data = String "{" rest.
Proof.
  unfold json_loads.
  destruct (scan_once _ (skip_ws data)) as [v rest| |] eqn:E;
    try discriminate.
  destruct (skip_ws rest); [|discriminate].
  intros H; inversion H; subst.
  now apply scan_once_dict in E.
Qed.

(** C3.  The claim: [json2dict] never raises and returns a document with an
    empty item sequence on the empty text, a lone brace, the text not json
    and the text null.  It does on the first three.  On null it returns
    [None], which is no document: asking it for its items raises
    [AttributeError]. *)
Theorem json2dict_null_is_no_document :
  json2dict "" = Ok (JObj []) /\
  json2dict "{" = Ok (JObj []) /\
  json2dict "not json" = Ok (JObj []) /\
  json2dict "null" = Ok JNull /\
  py_get JNull "items" (JArr []) = Raise AttributeError.
Proof. repeat split; reflexivity. Qed.

(** C10.  [json2dict] returns the value [json.loads] parsed, whatever its
    type, and its empty dict exactly when [json.loads] raised [ValueError]:
    [None] for null, a list for [[]], a number for 123.  So it returns a
    dict only when parsing failed or the text, after white space, starts an
    object. *)
Theorem json2dict_returns_parsed (data : string) :
  ((exists v, json_loads data = Ok v) \/ json_loads data = Raise ValueError) /\
  (forall v, json_loads data = Ok v -> json2dict data = Ok v) /\
  (json_loads data = Raise ValueError -> json2dict data = Ok (JObj [])) /\
  (forall v, json2dict data = Ok v ->
     json_loads data = Ok v \/
     (json_loads data = Raise ValueError /\ v = JObj [])) /\
  json2dict "null" = Ok JNull /\
  json2dict "[]" = Ok (JArr []) /\
  json2dict "123" = Ok (JInt 123) /\
  (forall d, json2dict data = Ok (JObj d) ->
     json_loads data = Raise ValueError \/
     (json_loads data = Ok (JObj d) /\
      exists rest, skip_ws data = String "{" rest)).
Proof.
  split; [apply json_loads_total|].
  unfold json2dict.
  split; [intros v E; now rewrite E|].
  split; [intros E; now rewrite E|].
  split.
  { intros v. destruct (json_loads_total data) as [[w E]|E]; rewrite E;
      intros H; inversion H; auto. }
  repeat (split; [reflexivity|]).
  intros d.
  destruct (json_loads_total data) as [[v E]|E]; rewrite E; [|auto].
  intros H; inversion H; subst. right.
  split; [reflexivity|]. now apply json_loads_dict in E.
Qed.

(** The parsed number 123 is returned as it is. *)
Lemma json2dict_returns_parsed_at_123 : json2dict "123" = Ok (JInt 123).
Proof.
  apply (proj1 (proj2 (json2dict_returns_parsed "123"))). reflexivity.
Defined.

(** ** The loops of the renderers *)

Lemma bind_ok {A B : Type} (r : result A) (k : A -> result B) (b : B) :
  bind r k = Ok b -> exists a, r = Ok a /\ k a = Ok b.
Proof. destruct r as [a|e]; simpl; [eauto|discriminate]. Qed.

(** A loop whose body appends one line to each of two lists yields the
    lines of its items, in order. *)
Lemma for_each_append {A : Type} (f : A -> result (string * string))
  (l : list A) :
  forall cpu mem st,
    for_each (fun st x => r <- f x ;;
                Ok ((fst st ++ [fst r])%list, (snd st ++ [snd r])%list))
             l (cpu, mem) = Ok st <->
    exists rows,
      Forall2 (fun x row => f x = Ok row) l rows /\
      st = ((cpu ++ map fst rows)%list, (mem ++ map snd rows)%list).
Proof.
  induction l as [|x l IH]; intros cpu mem st; simpl.
  - split.
    + intros H; inversion H; subst. exists []. split; [constructor|].
      simpl. now rewrite !app_nil_r.
    + intros (rows & F & ->). inversion F; subst.
      simpl. now rewrite !app_nil_r.
  - split.
    + intros H. apply bind_ok in H as (st' & E & H).
      apply bind_ok in E as (row & E & E').
      inversion E'; subst; clear E'. simpl in H.
      apply IH in H as (rows & F & ->).
      exists (row :: rows). split; [now constructor|].
      simpl. now rewrite <- !app_assoc.
    + intros (rows & F & ->). inversion F as [|x' row l' rows' E F']; subst.
      rewrite E. simpl. apply IH. exists rows'. split; [assumption|].
      simpl. now rewrite <- !app_assoc.
Qed.

Section RenderingFacts.

Context {rt : PyRuntime}.

Lemma for_each_pod_body (pods : list json) :
  forall cpu mem st,
    for_each pod_body pods (cpu, mem) = Ok st <->
    exists rowss,
      Forall2 pod_rows pods rowss /\
      st = ((cpu ++ map fst (concat rowss))%list,
            (mem ++ map snd (concat rowss))%list).
Proof.
  induction pods as [|pod pods IH]; intros cpu mem st; simpl.
  - split.
    + intros H; inversion H; subst. exists []. split; [constructor|].
      simpl. now rewrite !app_nil_r.
    + intros (rowss & F & ->). inversion F; subst.
      simpl. now rewrite !app_nil_r.
  - split.
    + intros H. apply bind_ok in H as (st' & E & H).
      unfold pod_body in E.
      apply bind_ok in E as (lbl & El & E).
      apply bind_ok in E as (cs & Ec & E).
      apply for_each_append in E as (rows & Fc & ->).
      apply IH in H as (rowss & F & ->).
      exists (rows :: rowss). split.
      * constructor; [|assumption]. now exists lbl, cs.
      * simpl. now rewrite !map_app, <- !app_assoc.
    + intros (rowss & F & ->).
      inversion F as [|pod' rows pods' rowss' (lbl & cs & El & Ec & Fc) F'];
        subst.
      unfold pod_body at 1. rewrite El, Ec. simpl.
      assert (E : for_each (container_body lbl) cs (cpu, mem) =
                  Ok ((cpu ++ map fst rows)%list, (mem ++ map snd rows)%list))
        by (apply for_each_append; eauto).
      rewrite E. simpl. apply IH. exists rowss'. split; [assumption|].
      now rewrite !map_app, <- !app_assoc.
Qed.

Lemma render_nodes_rows (data : json) (text : string) :
  render_nodes data = Ok text <->
  exists nodes rows,
    document_items data = Ok nodes /\
    Forall2 (fun node row => node_lines node = Ok row) nodes rows /\
    text = join newline
             (node_cpu_header ++ map fst rows
                ++ node_mem_header ++ map snd rows)%list.
Proof.
  unfold render_nodes. split.
  - intros H. apply bind_ok in H as (nodes & En & H).
    apply bind_ok in H as (st & Es & H).
    apply for_each_append in Es as (rows & F & ->).
    inversion H; subst. exists nodes, rows.
    repeat split; auto.
  - intros (nodes & rows & En & F & ->). rewrite En. simpl.
    assert (E : for_each node_body nodes (node_cpu_header, node_mem_header) =
                Ok ((node_cpu_header ++ map fst rows)%list,
                    (node_mem_header ++ map snd rows)%list))
      by (apply for_each_append; eauto).
    rewrite E. reflexivity.
Qed.

Lemma render_pods_rows (data : json) (text : string) :
  render_pods data = Ok text <->
  exists pods rowss,
    document_items data = Ok pods /\
    Forall2 pod_rows pods rowss /\
    text = join newline
             (pod_cpu_header ++ map fst (concat rowss)
                ++ pod_mem_header ++ map snd (concat rowss))%list.
Proof.
  unfold render_pods. split.
  - intros H. apply bind_ok in H as (pods & En & H).
    apply bind_ok in H as (st & Es & H).
    apply for_each_pod_body in Es as (rowss & F & ->).
    inversion H; subst. exists pods, rowss.
    repeat split; auto.
  - intros (pods & rowss & En & F & ->). rewrite En. simpl.
    assert (E : for_each pod_body pods (pod_cpu_header, pod_mem_header) =
                Ok ((pod_cpu_header ++ map fst (concat rowss))%list,
                    (pod_mem_header ++ map snd (concat rowss))%list))
      by (apply for_each_pod_body; eauto).
    rewrite E. reflexivity.
Qed.

End RenderingFacts.

Lemma format_node_tpl (a1 a2 a3 a4 a5 a6 a7 : string) :
  format node_tpl [a1; a2; a3; a4; a5; a6; a7] =
  Ok (node_series a1 a2 a3 a4 a5 a6 a7).
Proof.
  transitivity (Ok (node_series a1 a2 a3 a4 a5 a6 (a7 ++ EmptyString)));
    [reflexivity|now rewrite append_empty].
Qed.

Lemma format_pod_tpl (a1 a2 a3 a4 a5 a6 a7 a8 a9 : string) :
  format pod_tpl [a1; a2; a3; a4; a5; a6; a7; a8; a9] =
  Ok (pod_series a1 a2 a3 a4 a5 a6 a7 a8 a9).
Proof.
  transitivity (Ok (pod_series a1 a2 a3 a4 a5 a6 a7 a8 (a9 ++ EmptyString)));
    [reflexivity|now rewrite append_empty].
Qed.

Lemma label_value_scanned (v rest : string) :
  label_safe v = true ->
  series_from InLabelValue (v ++ String "034" rest) =
  series_from AfterLabelValue rest.
Proof.
  induction v as [|c v IH]; simpl; [reflexivity|].
  intros H. repeat (apply andb_true_iff in H as [H ?]).
  destruct (Ascii.eqb c "034"); [discriminate|].
  destruct (Ascii.eqb c "092"); [discriminate|].
  destruct (Ascii.eqb c "010"); [discriminate|].
  auto.
Qed.

Ltac scan_labels :=
  repeat (cbn -[is_number];
          rewrite label_value_scanned by assumption).

Lemma node_series_accepted (kind n c t w d v : string) :
  kind = "cpu" \/ kind = "mem" ->
  label_safe n = true -> label_safe c = true -> label_safe t = true ->
  label_safe w = true -> label_safe d = true -> is_number v = true ->
  exposition_line (node_series kind n c t w d v) = true.
Proof.
  intros K Hn Hc Ht Hw Hd Hv.
  unfold exposition_line, node_series, dquote, chr.
  destruct K; subst; scan_labels; exact Hv.
Qed.

Lemma pod_series_accepted (kind p k ns c t w d v : string) :
  kind = "cpu" \/ kind = "mem" ->
  label_safe p = true -> label_safe k = true -> label_safe ns = true ->
  label_safe c = true -> label_safe t = true ->
  label_safe w = true -> label_safe d = true -> is_number v = true ->
  exposition_line (pod_series kind p k ns c t w d v) = true.
Proof.
  intros K Hp Hk Hns Hc Ht Hw Hd Hv.
  unfold exposition_line, pod_series, dquote, chr.
  destruct K; subst; scan_labels; exact Hv.
Qed.

(** ** The value of a converted usage is a number *)

Lemma uint_digits (d : Decimal.uint) :
  digits (NilEmpty.string_of_uint d) = true.
Proof. induction d; simpl; auto. Qed.

Lemma uint_text (d : Decimal.uint) :
  exists c ds, NilZero.string_of_uint d = String c ds /\
               is_digit c = true /\ digits ds = true.
Proof.
  destruct d; simpl;
    try (eexists _, _; split; [reflexivity|];
         split; [reflexivity|apply uint_digits]).
  exists "0"%char, EmptyString. repeat split.
Qed.

Lemma is_decimal_digits (c : ascii) (ds : string) :
  is_digit c = true -> digits ds = true ->
  is_decimal (String c ds) = true.
Proof.
  intros Hc Hd. unfold is_decimal.
  rewrite <- (append_empty (String c ds)).
  rewrite span_digits_app; [reflexivity| |reflexivity].
  simpl. now rewrite Hc, Hd.
Qed.

Lemma strip_sign_digit (c : ascii) (ds : string) :
  is_digit c = true -> strip_sign (String c ds) = String c ds.
Proof.
  intros Hc. unfold strip_sign. cbn [strip_any strip_prefix].
  destruct (Ascii.eqb_spec "+" c); [subst; discriminate|].
  destruct (Ascii.eqb_spec "-" c); [subst; discriminate|].
  reflexivity.
Qed.

Lemma is_number_digits (c : ascii) (ds : string) :
  is_digit c = true -> digits ds = true ->
  is_number (String c ds) = true.
Proof.
  intros Hc Hd. unfold is_number.
  rewrite strip_sign_digit, is_decimal_digits by assumption.
  apply orb_true_r.
Qed.

Lemma is_number_int (n : Z) : is_number (str_of_int n) = true.
Proof.
  unfold str_of_int, NilZero.string_of_int.
  destruct (Z.to_int n) as [d|d];
    destruct (uint_text d) as (c & ds & -> & Hc & Hd).
  - now apply is_number_digits.
  - unfold is_number.
    change (strip_sign (String "-" (String c ds))) with (String c ds).
    rewrite is_decimal_digits by assumption. apply orb_true_r.
Qed.

Lemma join_app (sep : string) (a b : list string) :
  a <> [] -> b <> [] ->
  join sep (a ++ b)%list = join sep a ++ sep ++ join sep b.
Proof.
  intros Na Nb. induction a as [|x a IH]; [congruence|].
  destruct a as [|y a].
  - destruct b as [|z b]; [congruence|]. reflexivity.
  - change (join sep ((x :: y :: a) ++ b)%list)
      with (x ++ sep ++ join sep ((y :: a) ++ b)%list).
    rewrite IH by discriminate.
    change (join sep (x :: y :: a)) with (x ++ sep ++ join sep (y :: a)).
    now rewrite !append_assoc.
Qed.

(** ** The lines of the renderers *)

Section Lines.

Context {rt : PyRuntime}.

Lemma py_get_field (d : list (string * json)) (key : string) :
  py_get (JObj d) key (JStr "") = Ok (field d key).
Proof. unfold py_get, field. now destruct (dict_lookup key d). Qed.

(** A lookup that falls back to a list, followed by a lookup in its result,
    goes through only when the key is present and holds an object. *)
Lemma py_get_nested (x : json) (key key' : string) (default v w : json) :
  py_get x key (JArr []) = Ok v -> py_get v key' default = Ok w ->
  exists d o, x = JObj d /\ dict_lookup key d = Some (JObj o) /\ v = JObj o.
Proof.
  intros H1 H2. destruct x as [| | | | | |d]; try discriminate.
  destruct v as [| | | | | |o]; try discriminate.
  exists d, o. simpl in H1.
  destruct (dict_lookup key d) as [u|]; inversion H1; subst; auto.
Qed.

Lemma usage_values_iff (item : json) (cpu mem : json) :
  usage_values item = Ok (cpu, mem) <->
  exists d u,
    item = JObj d /\ dict_lookup "usage" d = Some (JObj u) /\
    cpu = field u "cpu" /\ mem = field u "memory".
Proof.
  unfold usage_values. split.
  - intros H.
    apply bind_ok in H as (u1 & E1 & H).
    apply bind_ok in H as (c & Ec & H).
    apply bind_ok in H as (u2 & E2 & H).
    apply bind_ok in H as (m & Em & H).
    inversion H; subst; clear H.
    destruct (py_get_nested _ _ _ _ _ _ E1 Ec) as (d & u & -> & L & ->).
    rewrite E1 in E2. inversion E2; subst.
    rewrite py_get_field in Ec, Em. inversion Ec; inversion Em.
    now exists d, u.
  - intros (d & u & -> & L & -> & ->).
    assert (E : py_get (JObj d) "usage" (JArr []) = Ok (JObj u))
      by (unfold py_get; now rewrite L).
    rewrite E. cbn [bind]. now rewrite !py_get_field.
Qed.

Lemma node_labels_iff (node : json) (lbl : node_lbl) :
  node_labels node = Ok lbl <->
  exists d md,
    node = JObj d /\ dict_lookup "metadata" d = Some (JObj md) /\
    lbl = {| nl_node := field md "name";
             nl_created := field md "creationTimestamp";
             nl_timestamp := field d "timestamp";
             nl_window := field d "window" |}.
Proof.
  unfold node_labels. split.
  - intros H.
    apply bind_ok in H as (m1 & E1 & H).
    apply bind_ok in H as (name & En & H).
    apply bind_ok in H as (m2 & E2 & H).
    apply bind_ok in H as (created & Ec & H).
    apply bind_ok in H as (ts & Et & H).
    apply bind_ok in H as (w & Ew & H).
    inversion H; subst; clear H.
    destruct (py_get_nested _ _ _ _ _ _ E1 En) as (d & md & -> & L & ->).
    rewrite E1 in E2. inversion E2; subst.
    rewrite py_get_field in En, Ec, Et, Ew.
    inversion En; inversion Ec; inversion Et; inversion Ew.
    now exists d, md.
  - intros (d & md & -> & L & ->).
    assert (E : py_get (JObj d) "metadata" (JArr []) = Ok (JObj md))
      by (unfold py_get; now rewrite L).
    rewrite E. cbn [bind]. now rewrite !py_get_field.
Qed.

Lemma pod_labels_iff (pod : json) (lbl : pod_lbl) :
  pod_labels pod = Ok lbl <->
  exists d md,
    pod = JObj d /\ dict_lookup "metadata" d = Some (JObj md) /\
    lbl = {| pl_pod := field md "name";
             pl_ns := field md "namespace";
             pl_created := field md "creationTimestamp";
             pl_timestamp := field d "timestamp";
             pl_window := field d "window" |}.
Proof.
  unfold pod_labels. split.
  - intros H.
    apply bind_ok in H as (m1 & E1 & H).
    apply bind_ok in H as (name & En & H).
    apply bind_ok in H as (m2 & E2 & H).
    apply bind_ok in H as (ns & Es & H).
    apply bind_ok in H as (m3 & E3 & H).
    apply bind_ok in H as (created & Ec & H).
    apply bind_ok in H as (ts & Et & H).
    apply bind_ok in H as (w & Ew & H).
    inversion H; subst; clear H.
    destruct (py_get_nested _ _ _ _ _ _ E1 En) as (d & md & -> & L & ->).
    rewrite E1 in E2, E3. inversion E2; inversion E3; subst.
    rewrite py_get_field in En, Es, Ec, Et, Ew.
    inversion En; inversion Es; inversion Ec; inversion Et; inversion Ew.
    now exists d, md.
  - intros (d & md & -> & L & ->).
    assert (E : py_get (JObj d) "metadata" (JArr []) = Ok (JObj md))
      by (unfold py_get; now rewrite L).
    rewrite E. cbn [bind]. now rewrite !py_get_field.
Qed.

Lemma node_line_shape (kind : string) (lbl : node_lbl) (raw : json)
  (line : string) :
  node_line kind lbl raw = Ok line <->
  exists s v,
    raw = JStr s /\ val2base s = Ok v /\
    line = node_series kind (py_str (nl_node lbl)) (py_str (nl_created lbl))
             (py_str (nl_timestamp lbl)) (py_str (nl_window lbl)) s
             (base_str v).
Proof.
  unfold node_line. split.
  - intros H. apply bind_ok in H as (s & Es & H).
    apply bind_ok in H as (v & Ev & H).
    destruct raw; try discriminate. inversion Es; subst.
    rewrite format_node_tpl in H. inversion H. eauto.
  - intros (s & v & -> & Ev & ->). simpl. rewrite Ev. simpl.
    apply format_node_tpl.
Qed.

Lemma pod_line_shape (kind : string) (lbl : pod_lbl) (cont raw : json)
  (line : string) :
  pod_line kind lbl cont raw = Ok line <->
  exists s v,
    raw = JStr s /\ val2base s = Ok v /\
    line = pod_series kind (py_str (pl_pod lbl)) (py_str cont)
             (py_str (pl_ns lbl)) (py_str (pl_created lbl))
             (py_str (pl_timestamp lbl)) (py_str (pl_window lbl)) s
             (base_str v).
Proof.
  unfold pod_line. split.
  - intros H. apply bind_ok in H as (s & Es & H).
    apply bind_ok in H as (v & Ev & H).
    destruct raw; try discriminate. inversion Es; subst.
    rewrite format_pod_tpl in H. inversion H. eauto.
  - intros (s & v & -> & Ev & ->). simpl. rewrite Ev. simpl.
    apply format_pod_tpl.
Qed.

(** The loop bodies, field by field. *)

Lemma node_lines_row (node : json) (row : string * string) :
  node_lines node = Ok row <-> node_row node row.
Proof.
  unfold node_lines, node_row. split.
  - intros H.
    apply bind_ok in H as (lbl & El & H).
    apply bind_ok in H as ([cpu mem] & Eu & H).
    apply bind_ok in H as (c & Ec & H).
    apply bind_ok in H as (m & Em & H).
    inversion H; subst; clear H. simpl in Ec, Em.
    apply node_labels_iff in El as (d & md & -> & Lm & ->).
    apply usage_values_iff in Eu as (d' & u & Ed & Lu & -> & ->).
    inversion Ed; subst d'.
    apply node_line_shape in Ec as (sc & vc & Fc & Evc & ->).
    apply node_line_shape in Em as (sm & vm & Fm & Evm & ->).
    exists d, md, u, sc, sm, vc, vm. simpl. repeat split; auto.
  - intros (d & md & u & sc & sm & vc & vm & -> & Lm & Lu & Fc & Fm & Evc & Evm
            & ->).
    assert (El : node_labels (JObj d) =
                 Ok {| nl_node := field md "name";
                       nl_created := field md "creationTimestamp";
                       nl_timestamp := field d "timestamp";
                       nl_window := field d "window" |})
      by (apply node_labels_iff; eauto).
    assert (Eu : usage_values (JObj d) = Ok (JStr sc, JStr sm))
      by (apply usage_values_iff; exists d, u; auto).
    rewrite El, Eu. simpl.
    assert (Ec : forall kind s v lbl, val2base s = Ok v ->
              node_line kind lbl (JStr s) =
              Ok (node_series kind (py_str (nl_node lbl))
                    (py_str (nl_created lbl)) (py_str (nl_timestamp lbl))
                    (py_str (nl_window lbl)) s (base_str v)))
      by (intros; apply node_line_shape; eauto).
    rewrite (Ec _ _ _ _ Evc), (Ec _ _ _ _ Evm). reflexivity.
Qed.

Lemma container_lines_row (d md : list (string * json)) (container : json)
  (row : string * string) :
  container_lines {| pl_pod := field md "name";
                     pl_ns := field md "namespace";
                     pl_created := field md "creationTimestamp";
                     pl_timestamp := field d "timestamp";
                     pl_window := field d "window" |} container = Ok row <->
  container_row d md container row.
Proof.
  unfold container_lines, container_row. split.
  - intros H.
    apply bind_ok in H as (cont & En & H).
    apply bind_ok in H as ([cpu mem] & Eu & H).
    apply bind_ok in H as (c & Ec & H).
    apply bind_ok in H as (m & Em & H).
    inversion H; subst; clear H. simpl in Ec, Em.
    apply usage_values_iff in Eu as (cd & u & -> & Lu & -> & ->).
    rewrite py_get_field in En. inversion En; subst; clear En.
    apply pod_line_shape in Ec as (sc & vc & Fc & Evc & ->).
    apply pod_line_shape in Em as (sm & vm & Fm & Evm & ->).
    exists cd, u, sc, sm, vc, vm. repeat split; auto.
  - intros (cd & u & sc & sm & vc & vm & -> & Lu & Fc & Fm & Evc & Evm & ->).
    rewrite py_get_field. cbn [bind].
    assert (Eu : usage_values (JObj cd) = Ok (JStr sc, JStr sm))
      by (apply usage_values_iff; exists cd, u; auto).
    rewrite Eu. cbn [bind fst snd].
    assert (Ec : forall kind lbl s v, val2base s = Ok v ->
              pod_line kind lbl (field cd "name") (JStr s) =
              Ok (pod_series kind (py_str (pl_pod lbl))
                    (py_str (field cd "name")) (py_str (pl_ns lbl))
                    (py_str (pl_created lbl)) (py_str (pl_timestamp lbl))
                    (py_str (pl_window lbl)) s (base_str v)))
      by (intros; apply pod_line_shape; eauto).
    rewrite (Ec _ _ _ _ Evc), (Ec _ _ _ _ Evm). reflexivity.
Qed.

Lemma pod_containers_of (d : list (string * json)) (containers : list json) :
  pod_containers (JObj d) = Ok containers <-> containers_of d containers.
Proof.
  unfold pod_containers, containers_of, py_get.
  destruct (dict_lookup "containers" d) as [c|]; cbn [bind]; [reflexivity|].
  simpl. split; intros H; [now inversion H|now subst].
Qed.

Lemma pod_rows_row_list (pod : json) (rows : list (string * string)) :
  pod_rows pod rows <-> pod_row_list pod rows.
Proof.
  unfold pod_rows, pod_row_list. split.
  - intros (lbl & cs & El & Ec & F).
    apply pod_labels_iff in El as (d & md & -> & L & ->).
    exists d, md, cs. split; [reflexivity|]. split; [assumption|].
    split; [now apply pod_containers_of|].
    eapply Forall2_impl; [|exact F].
    intros c row H. now apply container_lines_row.
  - intros (d & md & cs & -> & L & Ec & F).
    eexists _, cs. split; [apply pod_labels_iff; eauto|].
    split; [now apply pod_containers_of|].
    eapply Forall2_impl; [|exact F].
    intros c row H. now apply container_lines_row.
Qed.

Lemma forall2_iff {A B : Type} (P Q : A -> B -> Prop) (l : list A)
  (l' : list B) :
  (forall a b, P a b <-> Q a b) -> Forall2 P l l' <-> Forall2 Q l l'.
Proof.
  intros H. split; apply Forall2_impl; intros a b; apply H.
Qed.

Lemma trans_node_rows (s text : string) :
  trans_node_metrics s = Ok text <->
  exists data nodes rows,
    json2dict s = Ok data /\ document_items data = Ok nodes /\
    Forall2 node_row nodes rows /\
    text = join newline
             (node_cpu_header ++ map fst rows
                ++ node_mem_header ++ map snd rows)%list.
Proof.
  unfold trans_node_metrics. split.
  - intros H. apply bind_ok in H as (data & Ed & H).
    apply render_nodes_rows in H as (nodes & rows & En & F & ->).
    exists data, nodes, rows. repeat split; auto.
    now apply (forall2_iff _ _ _ _ node_lines_row).
  - intros (data & nodes & rows & Ed & En & F & ->).
    rewrite Ed. cbn [bind]. apply render_nodes_rows.
    exists nodes, rows. repeat split; auto.
    now apply (forall2_iff _ _ _ _ node_lines_row).
Qed.

Lemma trans_pod_rows (s text : string) :
  trans_pod_metrics s = Ok text <->
  exists data pods rowss,
    json2dict s = Ok data /\ document_items data = Ok pods /\
    Forall2 pod_row_list pods rowss /\
    text = join newline
             (pod_cpu_header ++ map fst (concat rowss)
                ++ pod_mem_header ++ map snd (concat rowss))%list.
Proof.
  unfold trans_pod_metrics. split.
  - intros H. apply bind_ok in H as (data & Ed & H).
    apply render_pods_rows in H as (pods & rowss & En & F & ->).
    exists data, pods, rowss. repeat split; auto.
    now apply (forall2_iff _ _ _ _ pod_rows_row_list).
  - intros (data & pods & rowss & Ed & En & F & ->).
    rewrite Ed. cbn [bind]. apply render_pods_rows.
    exists pods, rowss. repeat split; auto.
    now apply (forall2_iff _ _ _ _ pod_rows_row_list).
Qed.

End Lines.

(** ** The lines of a text *)

Lemma split_lines_one (a : string) :
  has_newline a = false -> split_lines a = [a].
Proof.
  induction a as [|c a IH]; simpl; [reflexivity|].
  intros H. apply orb_false_iff in H as [Hc Ha].
  now rewrite Hc, (IH Ha).
Qed.

Lemma split_lines_app (a b : string) :
  has_newline a = false ->
  split_lines (a ++ newline ++ b) = a :: split_lines b.
Proof.
  induction a as [|c a IH]; intros H; [reflexivity|].
  cbn [has_newline] in H. apply orb_false_iff in H as [Hc Ha].
  change (String c a ++ newline ++ b) with (String c (a ++ newline ++ b)).
  cbn [split_lines]. now rewrite Hc, (IH Ha).
Qed.

Lemma split_lines_join (l : list string) :
  l <> [] -> Forall (fun e => has_newline e = false) l ->
  split_lines (join newline l) = l.
Proof.
  induction l as [|x l IH]; [congruence|].
  intros _ F. inversion F as [|? ? Hx Hl]; subst.
  destruct l as [|y l].
  - now apply split_lines_one.
  - change (join newline (x :: y :: l))
      with (x ++ newline ++ join newline (y :: l)).
    rewrite split_lines_app by assumption.
    f_equal. apply IH; [discriminate|assumption].
Qed.

Lemma node_series_newline (kind n c t w d v : string) :
  has_newline (node_series kind n c t w d v) =
  existsb has_newline [kind; n; c; t; w; d; v].
Proof.
  unfold node_series. rewrite !has_newline_app. cbn [existsb].
  change (has_newline dquote) with false.
  change (has_newline "kube_metrics_server_node_") with false.
  change (has_newline "{node=") with false.
  change (has_newline ",created=") with false.
  change (has_newline ",timestamp=") with false.
  change (has_newline ",window=") with false.
  change (has_newline ",debugval=") with false.
  change (has_newline "} ") with false.
  cbn [orb]. rewrite orb_false_r. reflexivity.
Qed.

Lemma pod_series_newline (kind p k ns c t w d v : string) :
  has_newline (pod_series kind p k ns c t w d v) =
  existsb has_newline [kind; p; k; ns; c; t; w; d; v].
Proof.
  unfold pod_series. rewrite !has_newline_app. cbn [existsb].
  change (has_newline dquote) with false.
  change (has_newline "kube_metrics_server_pod_") with false.
  change (has_newline "{pod=") with false.
  change (has_newline ",container=") with false.
  change (has_newline ",namespace=") with false.
  change (has_newline ",created=") with false.
  change (has_newline ",timestamp=") with false.
  change (has_newline ",window=") with false.
  change (has_newline ",debugval=") with false.
  change (has_newline "} ") with false.
  cbn [orb]. rewrite orb_false_r. reflexivity.
Qed.

Lemma str_of_int_no_newline (n : Z) : has_newline (str_of_int n) = false.
Proof.
  unfold str_of_int, NilZero.string_of_int.
  destruct (Z.to_int n) as [d|d];
    destruct (uint_text d) as (c & ds & -> & Hc & Hd).
  - apply digits_no_newline. simpl. now rewrite Hc, Hd.
  - change (has_newline (String "-" (String c ds)))
      with (has_newline (String c ds)).
    apply digits_no_newline. simpl. now rewrite Hc, Hd.
Qed.

Lemma val2base_no_newline (s : string) (v : base) :
  val2base s = Ok v -> has_newline s = false ->
  has_newline (base_str v) = false.
Proof.
  intros E H. pose proof (val2base_outcome_holds s) as O. rewrite E in O.
  inversion O; subst; try apply str_of_int_no_newline. exact H.
Qed.

Lemma no_line_feed_app (a b : list string) :
  no_line_feed (a ++ b)%list = no_line_feed a && no_line_feed b.
Proof. unfold no_line_feed. now rewrite existsb_app, negb_orb. Qed.

Lemma no_line_feed_concat {A : Type} (f : A -> list string) (l : list A) :
  no_line_feed (concat (map f l)) = true ->
  Forall (fun x => no_line_feed (f x) = true) l.
Proof.
  induction l as [|x l IH]; simpl; [constructor|].
  rewrite no_line_feed_app. intros H. apply andb_true_iff in H as [Hx Hl].
  constructor; auto.
Qed.

Ltac no_line_feeds H :=
  unfold no_line_feed in H; apply negb_true_iff in H;
  cbn [existsb map app] in H;
  repeat (apply orb_false_iff in H as [? H]).

Section OneLine.

Context {rt : PyRuntime}.

Lemma usage_one_line (item u : list (string * json)) (sc sm : string)
  (vc vm : base) :
  dict_lookup "usage" item = Some (JObj u) ->
  field u "cpu" = JStr sc -> field u "memory" = JStr sm ->
  val2base sc = Ok vc -> val2base sm = Ok vm ->
  no_line_feed (usage_texts item) = true ->
  has_newline sc = false /\ has_newline (base_str vc) = false /\
  has_newline sm = false /\ has_newline (base_str vm) = false.
Proof.
  intros Lu Fc Fm Evc Evm H.
  unfold usage_texts, members in H. rewrite Lu, Fc, Fm in H.
  no_line_feeds H. cbn [py_str] in *.
  eauto 6 using val2base_no_newline.
Qed.

Lemma node_row_one_line (node : json) (row : string * string) :
  node_row node row -> no_line_feed (node_texts node) = true ->
  one_line row.
Proof.
  intros (d & md & u & sc & sm & vc & vm & -> & Lm & Lu & Fc & Fm & Evc & Evm
            & ->) H.
  unfold node_texts in H. rewrite no_line_feed_app in H.
  apply andb_true_iff in H as [Hl Hu].
  destruct (usage_one_line _ _ _ _ _ _ Lu Fc Fm Evc Evm Hu)
    as (Hc & Hvc & Hm & Hvm).
  unfold members in Hl. rewrite Lm in Hl. no_line_feeds Hl.
  split; cbn [fst snd]; rewrite node_series_newline; cbn [existsb];
    repeat match goal with
    | E : has_newline _ = false |- _ => rewrite E; clear E
    end; reflexivity.
Qed.

Lemma pod_row_list_one_line (pod : json) (rows : list (string * string)) :
  pod_row_list pod rows -> no_line_feed (pod_texts pod) = true ->
  Forall one_line rows.
Proof.
  intros (d & md & cs & -> & Lm & Ec & F) H.
  unfold pod_texts in H. rewrite no_line_feed_app in H.
  apply andb_true_iff in H as [Hl Hc].
  apply pod_containers_of in Ec. rewrite Ec in Hc.
  apply no_line_feed_concat in Hc.
  unfold members in Hl. rewrite Lm in Hl. no_line_feeds Hl.
  clear Ec. revert Hc.
  induction F as [|c row cs rows R F IH]; intros Hc; [constructor|].
  inversion Hc as [|? ? Hx Hcs]; subst.
  constructor; [|now apply IH].
  destruct R as (cd & u & sc & sm & vc & vm & -> & Lu & Fc & Fm & Evc & Evm
                    & ->).
  unfold container_texts in Hx.
  change (py_str (field cd "name") :: usage_texts cd)
    with ([py_str (field cd "name")] ++ usage_texts cd)%list in Hx.
  rewrite no_line_feed_app in Hx. apply andb_true_iff in Hx as [Hn Hu].
  destruct (usage_one_line _ _ _ _ _ _ Lu Fc Fm Evc Evm Hu)
    as (Hsc & Hvc & Hsm & Hvm).
  no_line_feeds Hn.
  split; cbn [fst snd]; rewrite pod_series_newline; cbn [existsb];
    repeat match goal with
    | E : has_newline _ = false |- _ => rewrite E; clear E
    end; reflexivity.
Qed.

Lemma entries_one_line (h1 h2 : list string) (rows : list (string * string)) :
  no_line_feed h1 = true -> no_line_feed h2 = true ->
  Forall one_line rows ->
  Forall (fun e => has_newline e = false)
         (h1 ++ map fst rows ++ h2 ++ map snd rows)%list.
Proof.
  intros H1 H2 F.
  assert (N : forall l, no_line_feed l = true ->
                        Forall (fun e => has_newline e = false) l).
  { induction l as [|x l IH]; [constructor|].
    unfold no_line_feed. cbn [existsb]. intros H.
    apply negb_true_iff, orb_false_iff in H as [Hx Hl].
    constructor; [assumption|]. apply IH. unfold no_line_feed.
    now rewrite Hl. }
  repeat (apply Forall_app; split); auto;
    apply Forall_map; eapply Forall_impl; [|exact F| |exact F];
    intros row [Hc Hm]; assumption.
Qed.

Lemma rows_concat_one_line (pods : list json)
  (rowss : list (list (string * string))) :
  Forall2 pod_row_list pods rowss ->
  Forall (fun pod => no_line_feed (pod_texts pod) = true) pods ->
  Forall one_line (concat rowss).
Proof.
  intros F. induction F as [|pod rows pods rowss R F IH]; intros H;
    [constructor|].
  inversion H; subst. simpl. apply Forall_app.
  split; [now apply (pod_row_list_one_line pod)|now apply IH].
Qed.

End OneLine.

(** ** The claims about the renderers *)

Section RendererClaims.

Context {rt : PyRuntime}.

(** C1.  The claim: both renderers return exposition text on every text.
    They do not: on the JSON text null both raise [AttributeError], as the
    node renderer does on an item that is an empty object, and it raises
    [TypeError] on a cpu usage of 1m0s. *)
Theorem renderers_raise :
  trans_node_metrics "null" = Raise AttributeError /\
  trans_pod_metrics "null" = Raise AttributeError /\
  trans_node_metrics doc_empty_item = Raise AttributeError /\
  trans_node_metrics doc_minutes_seconds = Raise TypeError.
Proof. repeat split; reflexivity. Qed.

(** C4.  The claim: an item without metadata or usage gives empty labels and
    values and no crash.  A missing name, timestamp or cpu does give the
    empty text, and missing containers give no line; but missing metadata or
    usage makes the lookup fall back to a list, which has no [get]: the label
    and usage extraction raise [AttributeError], and so do both renderers on
    an item that is an empty object. *)
Theorem missing_metadata_raises :
  node_labels (JObj []) = Raise AttributeError /\
  pod_labels (JObj []) = Raise AttributeError /\
  usage_values (JObj []) = Raise AttributeError /\
  trans_node_metrics doc_empty_item = Raise AttributeError /\
  trans_pod_metrics doc_empty_item = Raise AttributeError /\
  node_labels (JObj [("metadata", JObj [])]) =
    Ok {| nl_node := JStr ""; nl_created := JStr "";
          nl_timestamp := JStr ""; nl_window := JStr "" |} /\
  usage_values (JObj [("usage", JObj [])]) = Ok (JStr "", JStr "") /\
  pod_containers (JObj []) = Ok [] /\
  val2base "" = Ok (BStr "").
Proof. repeat split; reflexivity. Qed.

(** C7, amended.  Every series line of either renderer is its template with
    the label texts and the value put in as they are, nothing escaped: the
    family name, the label pairs between braces, a space and the value.  The
    labels of a node's two lines are the texts of its name,
    creationTimestamp, timestamp and window, in this order, then debugval,
    the usage as written; the value is what [val2base] makes of the usage.
    The lines of a pod's container carry the pod's name, the container's
    name, the pod's namespace, creationTimestamp, timestamp and window.  The
    text of a label that is a string is the string itself.  A line so built
    is a line of the exposition format whenever no label text holds a double
    quote, a backslash or a line feed and the value is a number, as every
    converted value is. *)
Theorem series_lines_verbatim :
  (forall s text, trans_node_metrics s = Ok text ->
     exists data nodes rows,
       json2dict s = Ok data /\ document_items data = Ok nodes /\
       Forall2 node_row nodes rows /\
       text = join newline
                (node_cpu_header ++ map fst rows
                   ++ node_mem_header ++ map snd rows)%list) /\
  (forall s text, trans_pod_metrics s = Ok text ->
     exists data pods rowss,
       json2dict s = Ok data /\ document_items data = Ok pods /\
       Forall2 pod_row_list pods rowss /\
       text = join newline
                (pod_cpu_header ++ map fst (concat rowss)
                   ++ pod_mem_header ++ map snd (concat rowss))%list) /\
  (forall x, py_str (JStr x) = x) /\
  (forall x, base_str (BStr x) = x) /\
  (forall kind n c t w d v,
     kind = "cpu" \/ kind = "mem" ->
     forallb label_safe [n; c; t; w; d] = true -> is_number v = true ->
     exposition_line (node_series kind n c t w d v) = true) /\
  (forall kind p k ns c t w d v,
     kind = "cpu" \/ kind = "mem" ->
     forallb label_safe [p; k; ns; c; t; w; d] = true -> is_number v = true ->
     exposition_line (pod_series kind p k ns c t w d v) = true) /\
  (forall n, is_number (base_str (BInt n)) = true) /\
  exposition_line
    (node_series "cpu" "n1" "2018" "ts" "30s" "250m" "15000") = true.
Proof.
  split; [|split; [|split; [|split; [|split; [|split; [|split]]]]]];
    [| |reflexivity|reflexivity| | | |reflexivity].
  - intros s text. apply trans_node_rows.
  - intros s text. apply trans_pod_rows.
  - intros kind n c t w d v K S N.
    cbn [forallb] in S. repeat (apply andb_true_iff in S as [? S]).
    now apply node_series_accepted.
  - intros kind p k ns c t w d v K S N.
    cbn [forallb] in S. repeat (apply andb_true_iff in S as [? S]).
    now apply pod_series_accepted.
  - intros n. apply is_number_int.
Qed.

(** C8, amended.  The text of either renderer is the HELP and TYPE entries
    of the cpu family, the cpu entries of the items in document order, the
    HELP and TYPE entries of the mem family, and the mem entries in the same
    order, joined by single line feeds.  When none of the label and usage
    texts of the items holds a line feed, these entries are the lines of the
    text, one each.  A document without items gives the node renderer's four
    header lines and nothing else. *)
Theorem headers_precede_series :
  (forall s text, trans_node_metrics s = Ok text ->
     exists data nodes rows,
       json2dict s = Ok data /\ document_items data = Ok nodes /\
       Forall2 node_row nodes rows /\
       text = join newline
         (["# HELP kube_metrics_server_node_cpu The CPU time of a node in seconds.";
           "# TYPE kube_metrics_server_node_cpu gauge"]
            ++ map fst rows
            ++ ["# HELP kube_metrics_server_node_mem The memory of a node in Bytes.";
                "# TYPE kube_metrics_server_node_mem gauge"]
            ++ map snd rows)%list /\
       (Forall (fun node => no_line_feed (node_texts node) = true) nodes ->
        split_lines text =
         (["# HELP kube_metrics_server_node_cpu The CPU time of a node in seconds.";
           "# TYPE kube_metrics_server_node_cpu gauge"]
            ++ map fst rows
            ++ ["# HELP kube_metrics_server_node_mem The memory of a node in Bytes.";
                "# TYPE kube_metrics_server_node_mem gauge"]
            ++ map snd rows)%list)) /\
  (forall s text, trans_pod_metrics s = Ok text ->
     exists data pods rowss,
       json2dict s = Ok data /\ document_items data = Ok pods /\
       Forall2 pod_row_list pods rowss /\
       text = join newline
         (["# HELP kube_metrics_server_pod_cpu The CPU time of a pod in seconds.";
           "# TYPE kube_metrics_server_pod_cpu gauge"]
            ++ map fst (concat rowss)
            ++ ["# HELP kube_metrics_server_pod_mem The memory of a pod in Bytes.";
                "# TYPE kube_metrics_server_pod_mem gauge"]
            ++ map snd (concat rowss))%list /\
       (Forall (fun pod => no_line_feed (pod_texts pod) = true) pods ->
        split_lines text =
         (["# HELP kube_metrics_server_pod_cpu The CPU time of a pod in seconds.";
           "# TYPE kube_metrics_server_pod_cpu gauge"]
            ++ map fst (concat rowss)
            ++ ["# HELP kube_metrics_server_pod_mem The memory of a pod in Bytes.";
                "# TYPE kube_metrics_server_pod_mem gauge"]
            ++ map snd (concat rowss))%list)) /\
  (forall data, document_items data = Ok [] ->
     render_nodes data =
     Ok (join newline
           ["# HELP kube_metrics_server_node_cpu The CPU time of a node in seconds.";
            "# TYPE kube_metrics_server_node_cpu gauge";
            "# HELP kube_metrics_server_node_mem The memory of a node in Bytes.";
            "# TYPE kube_metrics_server_node_mem gauge"])) /\
  split_lines
    (join newline
       ["# HELP kube_metrics_server_node_cpu The CPU time of a node in seconds.";
        "# TYPE kube_metrics_server_node_cpu gauge";
        "# HELP kube_metrics_server_node_mem The memory of a node in Bytes.";
        "# TYPE kube_metrics_server_node_mem gauge"]) =
    ["# HELP kube_metrics_server_node_cpu The CPU time of a node in seconds.";
     "# TYPE kube_metrics_server_node_cpu gauge";
     "# HELP kube_metrics_server_node_mem The memory of a node in Bytes.";
     "# TYPE kube_metrics_server_node_mem gauge"] /\
  (forall d items, dict_lookup "items" d = Some (JArr items) ->
     document_items (JObj d) = Ok items) /\
  document_items (JObj []) = Ok [] /\
  json2dict "{}" = Ok (JObj []) /\
  trans_node_metrics doc_one_node =
  Ok (join newline
        (node_cpu_header
           ++ [node_series "cpu" "n1" "2018" "ts" "30s" "250m" "15000"]
           ++ node_mem_header
           ++ [node_series "mem" "n1" "2018" "ts" "30s" "2048Ki" "2097152"])%list).
Proof.
  split; [|split; [|split; [|split; [|split; [|split; [|split]]]]]];
    try reflexivity.
  - intros s text H.
    apply trans_node_rows in H as (data & nodes & rows & Ed & En & F & ->).
    exists data, nodes, rows. repeat split; auto.
    intros S. apply split_lines_join; [discriminate|].
    apply (entries_one_line node_cpu_header node_mem_header);
      try reflexivity.
    clear En. induction F as [|node row nodes rows R F IH];
      [constructor|].
    inversion S; subst.
    constructor; [now apply (node_row_one_line node)|now apply IH].
  - intros s text H.
    apply trans_pod_rows in H as (data & pods & rowss & Ed & En & F & ->).
    exists data, pods, rowss. repeat split; auto.
    intros S. apply split_lines_join; [discriminate|].
    apply (entries_one_line pod_cpu_header pod_mem_header);
      try reflexivity.
    now apply (rows_concat_one_line pods).
  - intros data E. apply render_nodes_rows.
    exists [], []. repeat split; [assumption|constructor].
  - intros d items L. unfold document_items, py_get. now rewrite L.
Qed.

(** C9.  The claim: the pod renderer gives one cpu line and one mem line for
    each container of each pod, in input order, and a pod with no containers
    gives no line and no error.  A pod that has an empty list of containers
    and no metadata makes the loop body, and so the renderer, raise
    [AttributeError]: the labels are read before the containers, and the
    lookup of the missing metadata falls back to a list.  A pod whose
    metadata is an object and that has no containers leaves the lines as
    they are; whenever the renderer returns, its text holds one pair of lines
    for each container of each pod, in input order; one pod with two
    containers gives two cpu lines and two mem lines in container order. *)
Theorem pod_without_metadata_raises :
  pod_containers (JObj [("containers", JArr [])]) = Ok [] /\
  (forall st, pod_body st (JObj [("containers", JArr [])]) =
              Raise AttributeError) /\
  json2dict doc_pod_no_metadata =
    Ok (JObj [("items", JArr [JObj [("containers", JArr [])]])]) /\
  trans_pod_metrics doc_pod_no_metadata = Raise AttributeError /\
  (forall d md st,
     dict_lookup "metadata" d = Some (JObj md) -> containers_of d [] ->
     pod_body st (JObj d) = Ok st) /\
  trans_pod_metrics doc_pod_no_containers =
    Ok (join newline (pod_cpu_header ++ pod_mem_header)%list) /\
  (forall s text, trans_pod_metrics s = Ok text <->
     exists data pods rowss,
       json2dict s = Ok data /\ document_items data = Ok pods /\
       Forall2 pod_row_list pods rowss /\
       text = join newline
                (pod_cpu_header ++ map fst (concat rowss)
                   ++ pod_mem_header ++ map snd (concat rowss))%list) /\
  (forall d items, dict_lookup "items" d = Some (JArr items) ->
     document_items (JObj d) = Ok items) /\
  (forall d containers,
     dict_lookup "containers" d = Some (JArr containers) ->
     containers_of d containers) /\
  trans_pod_metrics doc_two_containers =
  Ok (join newline
        (pod_cpu_header
           ++ [pod_series "cpu" "p1" "c1" "ns" "" "" "" "5m" "300";
               pod_series "cpu" "p1" "c2" "ns" "" "" "" "250m" "15000"]
           ++ pod_mem_header
           ++ [pod_series "mem" "p1" "c1" "ns" "" "" "" "1Gi" "1073741824";
               pod_series "mem" "p1" "c2" "ns" "" "" "" "2048Ki" "2097152"])%list).
Proof.
  split; [|split; [|split; [|split; [|split; [|split; [|split; [|split;
    [|split]]]]]]]]; try reflexivity.
  - intros d md st L C. unfold pod_body.
    assert (El : exists lbl, pod_labels (JObj d) = Ok lbl)
      by (eexists; apply pod_labels_iff; eauto).
    destruct El as [lbl El]. apply pod_containers_of in C.
    now rewrite El, C.
  - intros s text. apply trans_pod_rows.
  - intros d items L. unfold document_items, py_get. now rewrite L.
  - intros d containers L. unfold containers_of. now rewrite L.
Qed.

End RendererClaims.

(** The lines of the one-node document are the node's lines, field by
    field. *)
Lemma series_lines_verbatim_at_one_node :
  exists data nodes rows,
    json2dict doc_one_node = Ok data /\ document_items data = Ok nodes /\
    Forall2 (@node_row example_runtime) nodes rows /\
    join newline
      (node_cpu_header
         ++ [node_series "cpu" "n1" "2018" "ts" "30s" "250m" "15000"]
         ++ node_mem_header
         ++ [node_series "mem" "n1" "2018" "ts" "30s" "2048Ki" "2097152"])%list
    = join newline
        (node_cpu_header ++ map fst rows
           ++ node_mem_header ++ map snd rows)%list.
Proof.
  apply (proj1 (@series_lines_verbatim example_runtime) doc_one_node).
  vm_compute. reflexivity.
Defined.

(** The two-container document: its entries are the lines of the text. *)
Lemma headers_precede_series_at_two_containers :
  exists data pods rowss,
    json2dict doc_two_containers = Ok data /\
    document_items data = Ok pods /\
    Forall2 (@pod_row_list example_runtime) pods rowss /\
    join newline
      (pod_cpu_header
         ++ [pod_series "cpu" "p1" "c1" "ns" "" "" "" "5m" "300";
             pod_series "cpu" "p1" "c2" "ns" "" "" "" "250m" "15000"]
         ++ pod_mem_header
         ++ [pod_series "mem" "p1" "c1" "ns" "" "" "" "1Gi" "1073741824";
             pod_series "mem" "p1" "c2" "ns" "" "" "" "2048Ki" "2097152"])%list
    = join newline
        (pod_cpu_header ++ map fst (concat rowss)
           ++ pod_mem_header ++ map snd (concat rowss))%list /\
    (Forall (fun pod => @no_line_feed (@pod_texts example_runtime pod) = true)
            pods ->
     split_lines
       (join newline
          (pod_cpu_header
             ++ [pod_series "cpu" "p1" "c1" "ns" "" "" "" "5m" "300";
                 pod_series "cpu" "p1" "c2" "ns" "" "" "" "250m" "15000"]
             ++ pod_mem_header
             ++ [pod_series "mem" "p1" "c1" "ns" "" "" "" "1Gi" "1073741824";
                 pod_series "mem" "p1" "c2" "ns" "" "" "" "2048Ki"
                   "2097152"])%list)
     = (pod_cpu_header ++ map fst (concat rowss)
          ++ pod_mem_header ++ map snd (concat rowss))%list).
Proof.
  apply (proj1 (proj2 (@headers_precede_series example_runtime))
           doc_two_containers).
  vm_compute. reflexivity.
Defined.

(** C7, the claim as stated fails: a node whose name is a, a double quote
    and b is rendered with the quote as it is, and the cpu line is no line of
    the exposition format. *)
Lemma quote_in_label_breaks_line :
  (forall rt : PyRuntime,
     @trans_node_metrics rt doc_quoted_name =
     Ok (join newline
           (node_cpu_header
              ++ [node_series "cpu" ("a" ++ dquote ++ "b") "" "" "" "5m" "300"]
              ++ node_mem_header
              ++ [node_series "mem" ("a" ++ dquote ++ "b") "" "" "" "1Ki"
                    "1024"])%list)) /\
  exposition_line
    (node_series "cpu" ("a" ++ dquote ++ "b") "" "" "" "5m" "300") = false.
Proof. split; [intros rt|]; vm_compute; reflexivity. Qed.

(** C8, the claim as stated fails: a node whose name holds two line feeds,
    and between them the text of a series line of the mem family, is rendered
    with the line feeds as they are.  The fourth line of the text is then a
    series line of the mem family, before the HELP line of that family, which
    is the sixth, and inside the cpu block. *)
Lemma line_feed_in_label_breaks_order :
  (forall rt : PyRuntime,
     @trans_node_metrics rt doc_line_feed_name =
     Ok (join newline
           (node_cpu_header
              ++ [node_series "cpu"
                    ("a" ++ newline ++ "kube_metrics_server_node_mem 1"
                         ++ newline ++ "b") "" "" "" "5m" "300"]
              ++ node_mem_header
              ++ [node_series "mem"
                    ("a" ++ newline ++ "kube_metrics_server_node_mem 1"
                         ++ newline ++ "b") "" "" "" "1Ki" "1024"])%list)) /\
  split_lines
    (join newline
       (node_cpu_header
          ++ [node_series "cpu"
                ("a" ++ newline ++ "kube_metrics_server_node_mem 1"
                     ++ newline ++ "b") "" "" "" "5m" "300"]
          ++ node_mem_header
          ++ [node_series "mem"
                ("a" ++ newline ++ "kube_metrics_server_node_mem 1"
                     ++ newline ++ "b") "" "" "" "1Ki" "1024"])%list) =
  ["# HELP kube_metrics_server_node_cpu The CPU time of a node in seconds.";
   "# TYPE kube_metrics_server_node_cpu gauge";
   "kube_metrics_server_node_cpu{node=" ++ dquote ++ "a";
   "kube_metrics_server_node_mem 1";
   "b" ++ dquote ++ ",created=" ++ dquote ++ dquote
       ++ ",timestamp=" ++ dquote ++ dquote
       ++ ",window=" ++ dquote ++ dquote
       ++ ",debugval=" ++ dquote ++ "5m" ++ dquote ++ "} 300";
   "# HELP kube_metrics_server_node_mem The memory of a node in Bytes.";
   "# TYPE kube_metrics_server_node_mem gauge";
   "kube_metrics_server_node_mem{node=" ++ dquote ++ "a";
   "kube_metrics_server_node_mem 1";
   "b" ++ dquote ++ ",created=" ++ dquote ++ dquote
       ++ ",timestamp=" ++ dquote ++ dquote
       ++ ",window=" ++ dquote ++ dquote
       ++ ",debugval=" ++ dquote ++ "1Ki" ++ dquote ++ "} 1024"] /\
  exposition_line "kube_metrics_server_node_mem 1" = true.
Proof. split; [intros rt|split]; vm_compute; reflexivity. Qed.

(** * Further properties *)

(** ** [val2base] *)

Lemma int_acc_nonneg (ds : string) :
  forall acc, (0 <= acc)%Z -> (0 <= int_acc acc ds)%Z.
Proof.
  induction ds as [|c ds IH]; intros acc H; cbn [int_acc]; [assumption|].
  apply IH. pose proof (Nat2Z.is_nonneg (code c - 48)). lia.
Qed.

Lemma uint_text_digits (d : Decimal.uint) :
  digits (NilZero.string_of_uint d) = true /\
  NilZero.string_of_uint d <> EmptyString.
Proof.
  destruct (uint_text d) as (c & ds & -> & Hc & Hd).
  split; [simpl; now rewrite Hc, Hd|discriminate].
Qed.

(** X2.  A value [val2base] converts is never negative, and its text is a
    non-empty run of digits, with no sign. *)
Theorem val2base_converted_nonnegative (s : string) (n : Z) :
  val2base s = Ok (BInt n) ->
  (0 <= n)%Z /\
  digits (base_str (BInt n)) = true /\
  base_str (BInt n) <> EmptyString.
Proof.
  intros E. pose proof (val2base_outcome_holds s) as O. rewrite E in O.
  assert (H : (0 <= n)%Z).
  { inversion O; subst;
      apply Z.mul_nonneg_nonneg; try lia; now apply int_acc_nonneg. }
  split; [exact H|].
  unfold base_str, str_of_int, NilZero.string_of_int.
  destruct n as [|q|q]; simpl Z.to_int; try lia; apply uint_text_digits.
Qed.

(** The converted value of 250m: 15000. *)
Lemma val2base_converted_nonnegative_at_250m :
  (0 <= 15000)%Z /\
  digits (base_str (BInt 15000)) = true /\
  base_str (BInt 15000) <> EmptyString.
Proof. apply (val2base_converted_nonnegative "250m"). reflexivity. Defined.

Lemma span_digits_nondigit (s : string) :
  starts_nondigit s = true -> span_digits s = (EmptyString, s).
Proof. intros H. now apply (span_digits_app EmptyString s). Qed.

Lemma span_digits_all (ds : string) :
  digits ds = true -> span_digits ds = (ds, EmptyString).
Proof.
  intros H. rewrite <- (append_empty ds) at 1. now apply span_digits_app.
Qed.

Lemma no_pattern_found (s : string) :
  (forall p, In p five_patterns -> re_search p s = None) ->
  val2base s = Ok (BStr s).
Proof.
  intros H. apply val2base_outcome_unique, outcome_other.
  intros p g I. now apply re_search_none; auto.
Qed.

Ltac concrete_spellings :=
  repeat match goal with
  | |- context [ci_spellings ?c] =>
      let l := eval vm_compute in (ci_spellings c) in
      change (ci_spellings c) with l
  end.

(** A character that starts no suffix starts no spelling of K, M or G. *)
Lemma no_suffix_letter (c : ascii) (rest : string) :
  starts_suffix c = false ->
  strip_any (ci_spellings "K") (String c rest) = None /\
  strip_any (ci_spellings "M") (String c rest) = None /\
  strip_any (ci_spellings "G") (String c rest) = None /\
  strip_any (ci_spellings "m") (String c rest) = None.
Proof.
  intros S. unfold starts_suffix in S. cbn [existsb] in S.
  vm_compute (ascii_of_nat 226) in S.
  repeat (apply orb_false_iff in S as [? S]).
  concrete_spellings. cbn [strip_any strip_prefix].
  repeat match goal with
  | H : Ascii.eqb _ c = false |- _ => rewrite H; clear H
  end.
  repeat split.
Qed.

(** X3.  [val2base] returns unchanged every text that does not start with a
    digit (a sign, a letter, the empty text), every text of digits only, and
    every text whose first digit run is followed by a character other than
    K, M or G in either case (or the first byte of the Kelvin sign): a point,
    a lone s, the n of nanocores. *)
Theorem val2base_passes_through :
  (forall s, starts_nondigit s = true -> val2base s = Ok (BStr s)) /\
  (forall ds, digits ds = true -> val2base ds = Ok (BStr ds)) /\
  (forall ds c rest,
     digits ds = true -> is_digit c = false -> starts_suffix c = false ->
     val2base (ds ++ String c rest) = Ok (BStr (ds ++ String c rest))).
Proof.
  split; [|split].
  - intros s H. apply no_pattern_found. intros p I.
    cbv [five_patterns] in I. simpl in I.
    split_cases; cbn [re_search re_Ki re_Mi re_Gi re_ms re_m];
      now rewrite span_digits_nondigit.
  - intros ds H. apply no_pattern_found. intros p I.
    cbv [five_patterns] in I. simpl in I.
    split_cases; cbn [re_search re_Ki re_Mi re_Gi re_ms re_m];
      rewrite span_digits_all by assumption; now destruct ds.
  - intros ds c rest D C S. apply no_pattern_found. intros p I.
    destruct (no_suffix_letter c rest S) as (HK & HM & HG & Hm).
    cbv [five_patterns] in I. simpl in I.
    split_cases; cbn [re_search re_Ki re_Mi re_Gi re_ms re_m];
      (rewrite span_digits_app; [|assumption|simpl; now rewrite C]);
      destruct ds; try reflexivity;
      rewrite ?HK, ?HM, ?HG, ?Hm; reflexivity.
Qed.

(** The nanocores of a cpu reading pass through. *)
Lemma val2base_passes_through_at_nanocores :
  val2base ("156340927" ++ String "n" EmptyString) =
  Ok (BStr ("156340927" ++ String "n" EmptyString)).
Proof.
  apply (proj2 (proj2 val2base_passes_through)); reflexivity.
Defined.

(** X4.  The suffix is read without regard to case: a digit run followed by
    any of Ki, ki, KI, kI gives the number times 1024, and likewise for Mi
    and Gi; followed by m or by a capital M alone it gives the number times
    60. *)
Theorem val2base_suffix_case (ds k m g i : string) :
  ds <> EmptyString -> digits ds = true ->
  In k ["K"; "k"] -> In m ["M"; "m"] -> In g ["G"; "g"] -> In i ["I"; "i"] ->
  val2base (ds ++ k ++ i) = Ok (BInt (int ds * 1024)) /\
  val2base (ds ++ m ++ i) = Ok (BInt (int ds * (1024 * 1024))) /\
  val2base (ds ++ g ++ i) = Ok (BInt (int ds * (1024 * 1024 * 1024))) /\
  val2base (ds ++ m) = Ok (BInt (int ds * 60)).
Proof.
  intros N D Ik Im Ig Ii.
  assert (Sk : In k (ci_spellings "K")) by (cbv in Ik; cbv; tauto).
  assert (Sm : In m (ci_spellings "M")) by (cbv in Im; cbv; tauto).
  assert (Sg : In g (ci_spellings "G")) by (cbv in Ig; cbv; tauto).
  assert (Si : In i (ci_spellings "i")) by (cbv in Ii; cbv; tauto).
  repeat split; apply val2base_outcome_unique.
  - apply outcome_Ki. now apply (suffix_matches ds k i).
  - apply outcome_Mi. now apply (suffix_matches ds m i).
  - apply outcome_Gi. now apply (suffix_matches ds g i).
  - apply outcome_m. now apply minutes_match.
Qed.

(** Upper-case suffixes on 5: 5KI, 5MI, 5GI, and 5M read as minutes. *)
Lemma val2base_suffix_case_at_upper :
  val2base ("5" ++ "K" ++ "I") = Ok (BInt (int "5" * 1024)) /\
  val2base ("5" ++ "M" ++ "I") = Ok (BInt (int "5" * (1024 * 1024))) /\
  val2base ("5" ++ "G" ++ "I") = Ok (BInt (int "5" * (1024 * 1024 * 1024))) /\
  val2base ("5" ++ "M") = Ok (BInt (int "5" * 60)).
Proof.
  apply (val2base_suffix_case "5" "K" "M" "G" "I");
    [discriminate|reflexivity|simpl; tauto..].
Defined.

(** ** The renderers *)

Section RendererFacts.

Context {rt : PyRuntime}.

(** X5.  A page that is not JSON, and a JSON object without items, render as
    the four header lines of each renderer and nothing else. *)
Theorem renderers_headers_only (s : string) :
  json_loads s = Raise ValueError \/
  (exists d, json_loads s = Ok (JObj d) /\ dict_lookup "items" d = None) ->
  trans_node_metrics s =
    Ok (join newline (node_cpu_header ++ node_mem_header)%list) /\
  trans_pod_metrics s =
    Ok (join newline (pod_cpu_header ++ pod_mem_header)%list).
Proof.
  unfold trans_node_metrics, trans_pod_metrics, json2dict.
  intros [E|(d & E & L)]; rewrite E; simpl.
  - split; reflexivity.
  - unfold render_nodes, render_pods, document_items. simpl.
    rewrite L. split; reflexivity.
Qed.

(** X6.  A page that is JSON but no object (null, a list, a number, a
    string, a boolean) makes both renderers raise [AttributeError]; an
    object whose items are null, a boolean or a number makes both raise
    [TypeError]. *)
Theorem renderers_raise_on_shape (s : string) (v : json) :
  json_loads s = Ok v ->
  ((forall d, v <> JObj d) ->
   trans_node_metrics s = Raise AttributeError /\
   trans_pod_metrics s = Raise AttributeError) /\
  (forall d x, v = JObj d -> dict_lookup "items" d = Some x ->
     py_iter x = Raise TypeError ->
     trans_node_metrics s = Raise TypeError /\
     trans_pod_metrics s = Raise TypeError).
Proof.
  intros E. unfold trans_node_metrics, trans_pod_metrics, json2dict.
  rewrite E. split.
  - intros H. destruct v; try (split; reflexivity).
    now destruct (H fields).
  - intros d x -> L I. simpl.
    unfold render_nodes, render_pods, document_items. simpl.
    rewrite L. simpl. rewrite I. split; reflexivity.
Qed.

(** X7.  A node gives its two lines exactly when it is an object whose
    metadata and usage are present and are objects, whose cpu and memory are
    strings or absent, and neither of them is a text [val2base] raises on.
    The labels are the node's name, creationTimestamp, timestamp and window,
    the empty text for an absent one; debugval is the usage as written and
    the value what [val2base] makes of it. *)
Theorem node_lines_iff (node : json) (row : string * string) :
  node_lines node = Ok row <->
  exists d md u sc sm vc vm,
    node = JObj d /\
    dict_lookup "metadata" d = Some (JObj md) /\
    dict_lookup "usage" d = Some (JObj u) /\
    field u "cpu" = JStr sc /\ field u "memory" = JStr sm /\
    val2base sc = Ok vc /\ val2base sm = Ok vm /\
    row = (node_series "cpu" (py_str (field md "name"))
             (py_str (field md "creationTimestamp"))
             (py_str (field d "timestamp")) (py_str (field d "window"))
             sc (base_str vc),
           node_series "mem" (py_str (field md "name"))
             (py_str (field md "creationTimestamp"))
             (py_str (field d "timestamp")) (py_str (field d "window"))
             sm (base_str vm)).
Proof.
  unfold node_lines. split.
  - intros H.
    apply bind_ok in H as (lbl & El & H).
    apply bind_ok in H as ([cpu mem] & Eu & H).
    apply bind_ok in H as (c & Ec & H).
    apply bind_ok in H as (m & Em & H).
    inversion H; subst; clear H. simpl in Ec, Em.
    apply node_labels_iff in El as (d & md & -> & Lm & ->).
    apply usage_values_iff in Eu as (d' & u & Ed & Lu & -> & ->).
    inversion Ed; subst d'.
    apply node_line_shape in Ec as (sc & vc & Fc & Evc & ->).
    apply node_line_shape in Em as (sm & vm & Fm & Evm & ->).
    exists d, md, u, sc, sm, vc, vm. simpl. repeat split; auto.
  - intros (d & md & u & sc & sm & vc & vm & -> & Lm & Lu & Fc & Fm & Evc & Evm
            & ->).
    assert (El : node_labels (JObj d) =
                 Ok {| nl_node := field md "name";
                       nl_created := field md "creationTimestamp";
                       nl_timestamp := field d "timestamp";
                       nl_window := field d "window" |})
      by (apply node_labels_iff; eauto).
    assert (Eu : usage_values (JObj d) = Ok (JStr sc, JStr sm))
      by (apply usage_values_iff; exists d, u; auto).
    rewrite El, Eu. simpl.
    assert (Ec : forall kind s v lbl, val2base s = Ok v ->
              node_line kind lbl (JStr s) =
              Ok (node_series kind (py_str (nl_node lbl))
                    (py_str (nl_created lbl)) (py_str (nl_timestamp lbl))
                    (py_str (nl_window lbl)) s (base_str v)))
      by (intros; apply node_line_shape; eauto).
    rewrite (Ec _ _ _ _ Evc), (Ec _ _ _ _ Evm). reflexivity.
Qed.

End RendererFacts.

(** A page with an error text renders as the header lines. *)
Lemma renderers_headers_only_at_error_page :
  @trans_node_metrics example_runtime "Service Unavailable" =
    Ok (join newline (node_cpu_header ++ node_mem_header)%list) /\
  @trans_pod_metrics example_runtime "Service Unavailable" =
    Ok (join newline (pod_cpu_header ++ pod_mem_header)%list).
Proof.
  apply (@renderers_headers_only example_runtime "Service Unavailable").
  left. reflexivity.
Defined.

(** The page that is a list: both renderers raise [AttributeError]. *)
Lemma renderers_raise_on_shape_at_list :
  @trans_node_metrics example_runtime "[]" = Raise AttributeError /\
  @trans_pod_metrics example_runtime "[]" = Raise AttributeError.
Proof.
  apply (proj1 (@renderers_raise_on_shape example_runtime "[]" (JArr [])
                  eq_refl)).
  intros d; discriminate.
Defined.

Section PodFacts.

Context {rt : PyRuntime}.

(** X8.  A pod's labels are read exactly when the pod is an object whose
    metadata is present and is an object, also when the pod has no
    containers; a container gives its two lines exactly when it is an object
    whose usage is present and is an object, whose cpu and memory are strings
    or absent, and [val2base] returns on both.  The lines carry the pod's
    labels, the container's name (the empty text when absent), the usage as
    written and its converted value. *)
Theorem pod_lines_iff :
  (forall pod lbl,
     pod_labels pod = Ok lbl <->
     exists d md,
       pod = JObj d /\ dict_lookup "metadata" d = Some (JObj md) /\
       lbl = {| pl_pod := field md "name";
                pl_ns := field md "namespace";
                pl_created := field md "creationTimestamp";
                pl_timestamp := field d "timestamp";
                pl_window := field d "window" |}) /\
  (forall lbl container row,
     container_lines lbl container = Ok row <->
     exists d u sc sm vc vm,
       container = JObj d /\
       dict_lookup "usage" d = Some (JObj u) /\
       field u "cpu" = JStr sc /\ field u "memory" = JStr sm /\
       val2base sc = Ok vc /\ val2base sm = Ok vm /\
       row = (pod_series "cpu" (py_str (pl_pod lbl)) (py_str (field d "name"))
                (py_str (pl_ns lbl)) (py_str (pl_created lbl))
                (py_str (pl_timestamp lbl)) (py_str (pl_window lbl))
                sc (base_str vc),
              pod_series "mem" (py_str (pl_pod lbl)) (py_str (field d "name"))
                (py_str (pl_ns lbl)) (py_str (pl_created lbl))
                (py_str (pl_timestamp lbl)) (py_str (pl_window lbl))
                sm (base_str vm))).
Proof.
  split; [apply pod_labels_iff|].
  intros lbl container row. unfold container_lines. split.
  - intros H.
    apply bind_ok in H as (cont & En & H).
    apply bind_ok in H as ([cpu mem] & Eu & H).
    apply bind_ok in H as (c & Ec & H).
    apply bind_ok in H as (m & Em & H).
    inversion H; subst; clear H. simpl in Ec, Em.
    apply usage_values_iff in Eu as (d & u & -> & Lu & -> & ->).
    rewrite py_get_field in En. inversion En; subst; clear En.
    apply pod_line_shape in Ec as (sc & vc & Fc & Evc & ->).
    apply pod_line_shape in Em as (sm & vm & Fm & Evm & ->).
    exists d, u, sc, sm, vc, vm. repeat split; auto.
  - intros (d & u & sc & sm & vc & vm & -> & Lu & Fc & Fm & Evc & Evm & ->).
    rewrite py_get_field. cbn [bind].
    assert (Eu : usage_values (JObj d) = Ok (JStr sc, JStr sm))
      by (apply usage_values_iff; exists d, u; auto).
    rewrite Eu. cbn [bind fst snd].
    assert (Ec : forall kind s v, val2base s = Ok v ->
              pod_line kind lbl (field d "name") (JStr s) =
              Ok (pod_series kind (py_str (pl_pod lbl))
                    (py_str (field d "name")) (py_str (pl_ns lbl))
                    (py_str (pl_created lbl)) (py_str (pl_timestamp lbl))
                    (py_str (pl_window lbl)) s (base_str v)))
      by (intros; apply pod_line_shape; eauto).
    rewrite (Ec _ _ _ Evc), (Ec _ _ _ Evm). reflexivity.
Qed.

End PodFacts.

(** ** The HTTP entry points *)

(** X10.  When both requests return, [healthz] has requested the nodes page
    and then the pods page and nothing else, and it answers 200 with the
    text ok exactly when both status codes are 200, 503 with the text failed
    otherwise; the bodies of the pages play no part. *)
Theorem healthz_verdict (net : network) (nodes pods : upstream)
  (log : list string) :
  net URL_NODES = Some nodes -> net URL_PODS = Some pods ->
  healthz net log =
  ((log ++ [URL_NODES; URL_PODS])%list,
   Answer
     (if (status_code nodes =? 200)%Z && (status_code pods =? 200)%Z
      then {| response := "ok"; status := 200; mimetype := "text/plain" |}
      else {| response := "failed"; status := 503;
              mimetype := "text/plain" |})).
Proof.
  intros En Ep. unfold healthz, io_bind, requests_get, io_ret.
  rewrite En, Ep, <- app_assoc.
  destruct (status_code nodes =? 200)%Z, (status_code pods =? 200)%Z;
    reflexivity.
Qed.

(** Nodes answer 200, pods answer 500: failed. *)
Lemma healthz_verdict_at_pods_500 :
  healthz (two_pages {| status_code := 200; text := "{}" |}
                     {| status_code := 500; text := "" |}) [] =
  ([URL_NODES; URL_PODS],
   Answer {| response := "failed"; status := 503;
             mimetype := "text/plain" |}).
Proof.
  apply (healthz_verdict
           (two_pages {| status_code := 200; text := "{}" |}
                      {| status_code := 500; text := "" |})
           {| status_code := 200; text := "{}" |}
           {| status_code := 500; text := "" |} []);
    reflexivity.
Defined.

(** X11.  A request that fails ends [healthz] with that failure, not with an
    answer of 503: after the nodes request alone when it is the one that
    fails, and after both requests when the pods request fails, whatever the
    status of the nodes page was. *)
Theorem healthz_request_failure (net : network) (log : list string) :
  (net URL_NODES = None ->
   healthz net log = ((log ++ [URL_NODES])%list, RequestFailed URL_NODES)) /\
  (forall nodes, net URL_NODES = Some nodes -> net URL_PODS = None ->
   healthz net log =
   ((log ++ [URL_NODES; URL_PODS])%list, RequestFailed URL_PODS)) /\
  (forall log' r, healthz net log = (log', Answer r) ->
     exists nodes pods,
       net URL_NODES = Some nodes /\ net URL_PODS = Some pods).
Proof.
  unfold healthz, io_bind, requests_get, io_ret.
  split; [|split].
  - intros E. now rewrite E.
  - intros nodes En Ep. now rewrite En, Ep, <- app_assoc.
  - intros log' r.
    destruct (net URL_NODES) as [n|]; [|discriminate].
    destruct (net URL_PODS) as [p|]; [|discriminate].
    eauto.
Qed.

(** With the proxy unreachable, the first request ends [healthz]. *)
Lemma healthz_request_failure_at_unreachable :
  healthz unreachable [] = ([URL_NODES], RequestFailed URL_NODES).
Proof.
  apply (proj1 (healthz_request_failure unreachable [])). reflexivity.
Defined.

Section HandlerFacts.

Context {rt : PyRuntime}.

Lemma metrics_fetched (net : network) (nodes pods : upstream)
  (log : list string) :
  net URL_NODES = Some nodes -> net URL_PODS = Some pods ->
  metrics net log =
  ((log ++ [URL_NODES; URL_PODS])%list,
   match trans_node_metrics (text nodes) with
   | Raise e => EngineRaised e
   | Ok prom_nodes =>
       match trans_pod_metrics (text pods) with
       | Raise e => EngineRaised e
       | Ok prom_pods =>
           Answer {| response := prom_nodes ++ newline ++ prom_pods;
                     status := 200; mimetype := "text/plain" |}
       end
   end).
Proof.
  intros En Ep. unfold metrics, io_bind, requests_get, io_ret, engine.
  rewrite En, Ep, <- app_assoc.
  destruct (trans_node_metrics (text nodes)); [|reflexivity].
  destruct (trans_pod_metrics (text pods)); reflexivity.
Qed.

(** X12.  When neither page is JSON, or each is a JSON object without items,
    [metrics] answers 200 with the eight header lines and nothing else,
    whatever the status codes of the pages: an error page of the proxy is
    served as an empty but successful scrape. *)
Theorem metrics_headers_only (net : network) (nodes pods : upstream)
  (log : list string) :
  net URL_NODES = Some nodes -> net URL_PODS = Some pods ->
  json_loads (text nodes) = Raise ValueError \/
  (exists d, json_loads (text nodes) = Ok (JObj d) /\
             dict_lookup "items" d = None) ->
  json_loads (text pods) = Raise ValueError \/
  (exists d, json_loads (text pods) = Ok (JObj d) /\
             dict_lookup "items" d = None) ->
  metrics net log =
  ((log ++ [URL_NODES; URL_PODS])%list,
   Answer {| response := join newline all_headers;
             status := 200; mimetype := "text/plain" |}).
Proof.
  intros En Ep Hn Hp. rewrite (metrics_fetched _ _ _ _ En Ep).
  rewrite (proj1 (renderers_headers_only _ Hn)).
  rewrite (proj2 (renderers_headers_only _ Hp)).
  reflexivity.
Qed.

(** X13.  When [metrics] answers, it has requested the nodes page and then
    the pods page and nothing else, the status is 200, and the body is what
    [trans_node_metrics] makes of the text of the nodes page, a line feed,
    and what [trans_pod_metrics] makes of the text of the pods page: the
    headers and the lines of the nodes of the nodes page, cpu then mem, then
    the headers and the lines of the containers of the pods of the pods page,
    cpu then mem, joined by single line feeds. *)
Theorem metrics_page_lines (net : network) (log log' : list string)
  (r : Response) :
  metrics net log = (log', Answer r) ->
  log' = (log ++ [URL_NODES; URL_PODS])%list /\
  status r = 200%Z /\ mimetype r = "text/plain" /\
  exists nodes pods prom_nodes prom_pods,
    net URL_NODES = Some nodes /\ net URL_PODS = Some pods /\
    trans_node_metrics (text nodes) = Ok prom_nodes /\
    trans_pod_metrics (text pods) = Ok prom_pods /\
    response r = prom_nodes ++ newline ++ prom_pods /\
    exists node_data node_items node_rows pod_data pod_items pod_rowss,
      json2dict (text nodes) = Ok node_data /\
      document_items node_data = Ok node_items /\
      Forall2 node_row node_items node_rows /\
      json2dict (text pods) = Ok pod_data /\
      document_items pod_data = Ok pod_items /\
      Forall2 pod_row_list pod_items pod_rowss /\
      response r =
      join newline
        (node_cpu_header ++ map fst node_rows
           ++ node_mem_header ++ map snd node_rows
           ++ pod_cpu_header ++ map fst (concat pod_rowss)
           ++ pod_mem_header ++ map snd (concat pod_rowss))%list.
Proof.
  intros H.
  destruct (net URL_NODES) as [nodes|] eqn:En.
  2:{ unfold metrics, io_bind, requests_get in H. rewrite En in H.
      discriminate. }
  destruct (net URL_PODS) as [pods|] eqn:Ep.
  2:{ unfold metrics, io_bind, requests_get in H. rewrite En, Ep in H.
      discriminate. }
  rewrite (metrics_fetched _ _ _ _ En Ep) in H.
  destruct (trans_node_metrics (text nodes)) as [pn|] eqn:Tn;
    [|discriminate].
  destruct (trans_pod_metrics (text pods)) as [pp|] eqn:Tp; [|discriminate].
  inversion H; subst; clear H.
  split; [reflexivity|]. split; [reflexivity|]. split; [reflexivity|].
  exists nodes, pods, pn, pp.
  repeat (split; [first [reflexivity|assumption]|]).
  apply trans_node_rows in Tn as (dn & ns & nrows & Edn & Ein & Fn & ->).
  apply trans_pod_rows in Tp as (dp & ps & prowss & Edp & Eip & Fp & ->).
  exists dn, ns, nrows, dp, ps, prowss.
  repeat (split; [assumption|]).
  cbn [response]. symmetry.
  replace (node_cpu_header ++ map fst nrows ++ node_mem_header
             ++ map snd nrows ++ pod_cpu_header ++ map fst (concat prowss)
             ++ pod_mem_header ++ map snd (concat prowss))%list
    with ((node_cpu_header ++ map fst nrows ++ node_mem_header
             ++ map snd nrows)
            ++ (pod_cpu_header ++ map fst (concat prowss)
                  ++ pod_mem_header ++ map snd (concat prowss)))%list
    by (now rewrite <- !app_assoc).
  rewrite join_app by discriminate. reflexivity.
Qed.

(** X14.  One page that is JSON but no object loses the whole scrape: when the
    nodes page is such, [metrics] ends with [AttributeError] after both
    requests whatever the pods page is, and when the pods page is such it
    ends with [AttributeError] although the nodes page rendered. *)
Theorem metrics_bad_page (net : network) (nodes pods : upstream)
  (log : list string) (v : json) :
  net URL_NODES = Some nodes -> net URL_PODS = Some pods ->
  (forall d, v <> JObj d) ->
  (json_loads (text nodes) = Ok v ->
   metrics net log =
   ((log ++ [URL_NODES; URL_PODS])%list, EngineRaised AttributeError)) /\
  (json_loads (text pods) = Ok v ->
   forall prom_nodes, trans_node_metrics (text nodes) = Ok prom_nodes ->
   metrics net log =
   ((log ++ [URL_NODES; URL_PODS])%list, EngineRaised AttributeError)).
Proof.
  intros En Ep Nv. rewrite (metrics_fetched _ _ _ _ En Ep). split.
  - intros E.
    now rewrite (proj1 (proj1 (renderers_raise_on_shape _ _ E) Nv)).
  - intros E pn Tn. rewrite Tn.
    now rewrite (proj2 (proj1 (renderers_raise_on_shape _ _ E) Nv)).
Qed.

End HandlerFacts.

(** Both pages answer 503 with an error text: 200 and the header lines. *)
Lemma metrics_headers_only_at_error_pages :
  @metrics example_runtime
    (two_pages {| status_code := 503; text := "Service Unavailable" |}
               {| status_code := 503; text := "Service Unavailable" |}) [] =
  ([URL_NODES; URL_PODS],
   Answer {| response := join newline all_headers;
             status := 200; mimetype := "text/plain" |}).
Proof.
  apply (@metrics_headers_only example_runtime
           (two_pages {| status_code := 503; text := "Service Unavailable" |}
                      {| status_code := 503; text := "Service Unavailable" |})
           {| status_code := 503; text := "Service Unavailable" |}
           {| status_code := 503; text := "Service Unavailable" |} []);
    try reflexivity; left; reflexivity.
Defined.

(** The nodes page holds one node, the pods page one pod with two
    containers. *)
Lemma metrics_page_lines_at_one_node_two_containers :
  [URL_NODES; URL_PODS] = ([] ++ [URL_NODES; URL_PODS])%list /\
  200%Z = 200%Z /\ "text/plain" = "text/plain" /\
  exists nodes pods prom_nodes prom_pods,
    two_pages {| status_code := 200; text := doc_one_node |}
              {| status_code := 200; text := doc_two_containers |} URL_NODES
      = Some nodes /\
    two_pages {| status_code := 200; text := doc_one_node |}
              {| status_code := 200; text := doc_two_containers |} URL_PODS
      = Some pods /\
    @trans_node_metrics example_runtime (text nodes) = Ok prom_nodes /\
    @trans_pod_metrics example_runtime (text pods) = Ok prom_pods /\
    page_one_node_two_containers = prom_nodes ++ newline ++ prom_pods /\
    exists node_data node_items node_rows pod_data pod_items pod_rowss,
      json2dict (text nodes) = Ok node_data /\
      document_items node_data = Ok node_items /\
      Forall2 (@node_row example_runtime) node_items node_rows /\
      json2dict (text pods) = Ok pod_data /\
      document_items pod_data = Ok pod_items /\
      Forall2 (@pod_row_list example_runtime) pod_items pod_rowss /\
      page_one_node_two_containers =
      join newline
        (node_cpu_header ++ map fst node_rows
           ++ node_mem_header ++ map snd node_rows
           ++ pod_cpu_header ++ map fst (concat pod_rowss)
           ++ pod_mem_header ++ map snd (concat pod_rowss))%list.
Proof.
  apply (@metrics_page_lines example_runtime
           (two_pages {| status_code := 200; text := doc_one_node |}
                      {| status_code := 200; text := doc_two_containers |})
           [] [URL_NODES; URL_PODS]
           {| response := page_one_node_two_containers;
              status := 200; mimetype := "text/plain" |}).
  vm_compute. reflexivity.
Defined.

(** The nodes page is null, the pods page an empty object. *)
Lemma metrics_bad_page_at_null :
  @metrics example_runtime
    (two_pages {| status_code := 200; text := "null" |}
               {| status_code := 200; text := "{}" |}) [] =
  ([URL_NODES; URL_PODS], EngineRaised AttributeError).
Proof.
  apply (proj1 (@metrics_bad_page example_runtime
                  (two_pages {| status_code := 200; text := "null" |}
                             {| status_code := 200; text := "{}" |})
                  {| status_code := 200; text := "null" |}
                  {| status_code := 200; text := "{}" |} [] JNull
                  eq_refl eq_refl
                  ltac:(intros d; discriminate)));
    reflexivity.
Defined.
